(** * GraphTool point benchmark: a model of [source/Main.cpp]

    The program uploads [pointCount] random 2D points to a GL buffer, then
    renders the whole buffer once per frame while rewriting one window of
    [batchSize] points per frame ([AlterBuffer]) until the cursor reaches the
    end of the buffer.  On exit it prints the mean frame time and the frame
    count.

    Conventions of the embedding:
    - [unsigned int] is a 32-bit quantity: a [Z] in [0, 2^32) with the
      wrap-around of every arithmetic operation written out ([u32]);
      [size_t] is 64 bits wide ([usize]);
    - [float] is IEEE-754 binary32, taken from [SpecFloat] at precision 24
      and maximal exponent 128; its object representation is four bytes,
      little endian;
    - the GL server, the window system, standard output, the clock and the
      user are an explicit [World] and [Env] that every function threads;
    - [<random>] is an interface ([RandomLibrary]): the C++ standard fixes
      the contract of [std::default_random_engine] and
      [std::uniform_real_distribution], not their algorithms. *)

From Stdlib Require Import ZArith List Bool Lia.
From Stdlib Require Import Floats.SpecFloat.
From Stdlib Require Import Init.Byte.
From stdpp Require Import base gmap list.

Local Open Scope Z_scope.

(** ** Machine integers *)

Definition u32 (z : Z) : Z := z mod 2 ^ 32.
Definition usize (z : Z) : Z := z mod 2 ^ 64.

Definition is_u32 (z : Z) : Prop := 0 <= z < 2 ^ 32.

Definition sizeof_float : Z := 4.

(** ** binary32 *)

Module Float32.

Definition t : Type := spec_float.

Definition prec : Z := 24.
Definition emax : Z := 128.

Definition add : t -> t -> t := SFadd prec emax.
Definition sub : t -> t -> t := SFsub prec emax.
Definition mul : t -> t -> t := SFmul prec emax.
Definition div : t -> t -> t := SFdiv prec emax.
Definition ltb : t -> t -> bool := SFltb.
Definition leb : t -> t -> bool := SFleb.

(** [static_cast<float>(n)] for an unsigned [n]: round to nearest even. *)
Definition of_uint (n : Z) : t := binary_normalize prec emax n 0 false.

Definition zero : t := S754_zero false.
Definition one : t := S754_finite false 8388608 (-23).
Definition neg_one : t := S754_finite true 8388608 (-23).

(** The half-open interval test [lo <= f < hi]. *)
Definition within (lo hi f : t) : bool := leb lo f && ltb f hi.

(** The 32-bit pattern: sign, biased exponent, fraction.  For a canonical
    finite [m * 2^e] the exponent field is [e + 149] shifted by the hidden
    bit, which also covers subnormals ([e = -149], field 0). *)
Definition sign_bit (s : bool) : Z := if s then 2 ^ 31 else 0.

Definition bits (f : t) : Z :=
  match f with
  | S754_zero s => sign_bit s
  | S754_infinity s => sign_bit s + 2139095040
  | S754_nan => 2143289344
  | S754_finite s m e => sign_bit s + (e + 149) * 2 ^ 23 + Z.pos m
  end.

Definition byte_of_Z (z : Z) : byte :=
  match Byte.of_N (Z.to_N (z mod 256)) with
  | Some b => b
  | None => x00
  end.

Definition to_bytes (f : t) : list byte :=
  let b := bits f in
  [ byte_of_Z b; byte_of_Z (Z.shiftr b 8);
    byte_of_Z (Z.shiftr b 16); byte_of_Z (Z.shiftr b 24) ].

End Float32.

(** The bytes behind [buffer.data()] for a [std::vector<float>]. *)
Definition vector_bytes (v : list Float32.t) : list byte :=
  flat_map Float32.to_bytes v.

(** ** The random-number library

    [engine_default] is [std::default_random_engine engine;] and
    [engine_seeded s] is [std::default_random_engine engine(s);].  A call
    [uniform_real a b g] is one draw [d(engine)] from a
    [std::uniform_real_distribution<float> d(a, b)]: it yields the sample and
    the advanced engine.  [uniform_real_range] is the range guarantee of
    [rand.dist.uni.real]: the sample [x] satisfies [a <= x < b]. *)

Class RandomLibrary := {
  engine : Type;
  engine_default : engine;
  engine_seeded : Z -> engine;
  uniform_real : Float32.t -> Float32.t -> engine -> Float32.t * engine;
  uniform_real_range : forall a b g,
    Float32.ltb a b = true ->
    Float32.within a b (fst (uniform_real a b g)) = true
}.

(** ** The world: GL buffer objects, the window, the call trace, stdout *)

(** The data store of a buffer object, addressed by byte. *)
Record DataStore := {
  ds_size : Z;
  ds_byte : Z -> byte
}.

Inductive OutLine :=
| OutFloat (f : Float32.t)
| OutUInt (n : Z).

Inductive WindowHint :=
| ContextVersionMajor (v : Z)
| ContextVersionMinor (v : Z)
| OpenGLCoreProfile.

Inductive Event :=
| EvInit
| EvWindowHint (hint : WindowHint)
| EvCreateWindow (width height : Z) (created : bool)
| EvMakeContextCurrent (nonnull : bool)
| EvLoadGL
| EvViewport (x y w h : Z)
| EvClearColor (r g b a : Float32.t)
| EvEnableDepthTest
| EvPollEvents
| EvAlterBuffer (offset batchSize seed : Z)
| EvSetWindowShouldClose
| EvClear
| EvUseProgram (program : Z)
| EvBindVertexArray (vao : Z)
| EvDrawArrays (first count : Z)
| EvSwapBuffers
| EvDeleteVertexArrays (vao : Z)
| EvDeleteBuffers (vbo : Z)
| EvDestroyWindow
| EvTerminate.

Record World := {
  gl_buffers : gmap positive DataStore;
  gl_array_buffer : option positive;
  gl_next_buffer : positive;
  gl_next_object : positive;
  gl_next_vertex_array : positive;
  gl_loaded : bool;
  context_current : bool;
  window_should_close : bool;
  trace : list Event;
  stdout : list OutLine
}.

Definition initial_world : World := {|
  gl_buffers := ∅;
  gl_array_buffer := None;
  gl_next_buffer := 1%positive;
  gl_next_object := 1%positive;
  gl_next_vertex_array := 1%positive;
  gl_loaded := false;
  context_current := false;
  window_should_close := false;
  trace := [];
  stdout := []
|}.

(** What the outside decides: whether the window and its context can be
    created, when the user asks to close the window, and what the clock
    measures on each frame. *)
Record Env := {
  create_window_ok : bool;
  make_current_ok : bool;
  close_requested : nat -> bool;
  elapsed_ms : nat -> Float32.t
}.

Definition with_buffers (b : gmap positive DataStore) (w : World) : World :=
  {| gl_buffers := b; gl_array_buffer := gl_array_buffer w;
     gl_next_buffer := gl_next_buffer w; gl_next_object := gl_next_object w;
     gl_next_vertex_array := gl_next_vertex_array w;
     gl_loaded := gl_loaded w; context_current := context_current w;
     window_should_close := window_should_close w;
     trace := trace w; stdout := stdout w |}.

Definition with_array_buffer (b : option positive) (w : World) : World :=
  {| gl_buffers := gl_buffers w; gl_array_buffer := b;
     gl_next_buffer := gl_next_buffer w; gl_next_object := gl_next_object w;
     gl_next_vertex_array := gl_next_vertex_array w;
     gl_loaded := gl_loaded w; context_current := context_current w;
     window_should_close := window_should_close w;
     trace := trace w; stdout := stdout w |}.

Definition with_next_buffer (n : positive) (w : World) : World :=
  {| gl_buffers := gl_buffers w; gl_array_buffer := gl_array_buffer w;
     gl_next_buffer := n; gl_next_object := gl_next_object w;
     gl_next_vertex_array := gl_next_vertex_array w;
     gl_loaded := gl_loaded w; context_current := context_current w;
     window_should_close := window_should_close w;
     trace := trace w; stdout := stdout w |}.

Definition with_next_object (n : positive) (w : World) : World :=
  {| gl_buffers := gl_buffers w; gl_array_buffer := gl_array_buffer w;
     gl_next_buffer := gl_next_buffer w; gl_next_object := n;
     gl_next_vertex_array := gl_next_vertex_array w;
     gl_loaded := gl_loaded w; context_current := context_current w;
     window_should_close := window_should_close w;
     trace := trace w; stdout := stdout w |}.

Definition with_next_vertex_array (n : positive) (w : World) : World :=
  {| gl_buffers := gl_buffers w; gl_array_buffer := gl_array_buffer w;
     gl_next_buffer := gl_next_buffer w; gl_next_object := gl_next_object w;
     gl_next_vertex_array := n;
     gl_loaded := gl_loaded w; context_current := context_current w;
     window_should_close := window_should_close w;
     trace := trace w; stdout := stdout w |}.

Definition with_context (current loaded : bool) (w : World) : World :=
  {| gl_buffers := gl_buffers w; gl_array_buffer := gl_array_buffer w;
     gl_next_buffer := gl_next_buffer w; gl_next_object := gl_next_object w;
     gl_next_vertex_array := gl_next_vertex_array w;
     gl_loaded := loaded; context_current := current;
     window_should_close := window_should_close w;
     trace := trace w; stdout := stdout w |}.

Definition with_should_close (c : bool) (w : World) : World :=
  {| gl_buffers := gl_buffers w; gl_array_buffer := gl_array_buffer w;
     gl_next_buffer := gl_next_buffer w; gl_next_object := gl_next_object w;
     gl_next_vertex_array := gl_next_vertex_array w;
     gl_loaded := gl_loaded w; context_current := context_current w;
     window_should_close := c;
     trace := trace w; stdout := stdout w |}.

(** Calls are appended in program order. *)
Definition emit (e : Event) (w : World) : World :=
  {| gl_buffers := gl_buffers w; gl_array_buffer := gl_array_buffer w;
     gl_next_buffer := gl_next_buffer w; gl_next_object := gl_next_object w;
     gl_next_vertex_array := gl_next_vertex_array w;
     gl_loaded := gl_loaded w; context_current := context_current w;
     window_should_close := window_should_close w;
     trace := trace w ++ [e]; stdout := stdout w |}.

(** [std::cout << x << std::endl]: one line. *)
Definition print_line (l : OutLine) (w : World) : World :=
  {| gl_buffers := gl_buffers w; gl_array_buffer := gl_array_buffer w;
     gl_next_buffer := gl_next_buffer w; gl_next_object := gl_next_object w;
     gl_next_vertex_array := gl_next_vertex_array w;
     gl_loaded := gl_loaded w; context_current := context_current w;
     window_should_close := window_should_close w;
     trace := trace w; stdout := stdout w ++ [l] |}.

(** ** The GL buffer commands the program uses (OpenGL 4.6 core, 6.1-6.3) *)

Definition buffer_name (name : Z) : option positive :=
  match name with
  | Z.pos p => Some p
  | _ => None
  end.

(** [glGenBuffers(1, &vbo)]: an unused, non-zero name. *)
Definition glGenBuffers (w : World) : Z * World :=
  (Z.pos (gl_next_buffer w),
   with_next_buffer (Pos.succ (gl_next_buffer w)) w).

(** [glBindBuffer(GL_ARRAY_BUFFER, name)]; name 0 unbinds. *)
Definition glBindBuffer (name : Z) (w : World) : World :=
  with_array_buffer (buffer_name name) w.

Definition store_of_bytes (size : Z) (data : list byte) : DataStore :=
  {| ds_size := size;
     ds_byte := fun i =>
       if (0 <=? i) && (i <? size) then nth (Z.to_nat i) data x00 else x00 |}.

(** [glBufferData(GL_ARRAY_BUFFER, size, data, usage)]: a new data store of
    [size] bytes for the bound buffer, initialised from [data]; an error and
    no effect when nothing is bound or [size] is negative. *)
Definition glBufferData (size : Z) (data : list byte) (w : World) : World :=
  match gl_array_buffer w with
  | Some p =>
      if 0 <=? size
      then with_buffers (<[p := store_of_bytes size data]> (gl_buffers w)) w
      else w
  | None => w
  end.

Definition store_write (offset size : Z) (data : list byte) (ds : DataStore)
  : DataStore :=
  {| ds_size := ds_size ds;
     ds_byte := fun i =>
       if (offset <=? i) && (i <? offset + size)
       then nth (Z.to_nat (i - offset)) data x00
       else ds_byte ds i |}.

(** [glBufferSubData(GL_ARRAY_BUFFER, offset, size, data)]: replaces the
    bytes [offset, offset + size) of the bound buffer's store.  It is
    [GL_INVALID_VALUE], with no effect, when [offset] or [size] is negative
    or the range passes the end of the store, and [GL_INVALID_OPERATION]
    when no buffer is bound. *)
Definition glBufferSubData (offset size : Z) (data : list byte) (w : World)
  : World :=
  match gl_array_buffer w with
  | Some p =>
      match gl_buffers w !! p with
      | Some ds =>
          if (0 <=? offset) && (0 <=? size) && (offset + size <=? ds_size ds)
          then with_buffers (<[p := store_write offset size data ds]> (gl_buffers w)) w
          else w
      | None => w
      end
  | None => w
  end.

(** The store behind a buffer handle. *)
Definition buffer_store (vbo : Z) (w : World) : option DataStore :=
  match buffer_name vbo with
  | Some p => gl_buffers w !! p
  | None => None
  end.

Definition buffer_size (vbo : Z) (w : World) : option Z :=
  match buffer_store vbo w with
  | Some ds => Some (ds_size ds)
  | None => None
  end.

Definition buffer_byte (vbo : Z) (i : Z) (w : World) : option byte :=
  match buffer_store vbo w with
  | Some ds => Some (ds_byte ds i)
  | None => None
  end.

(** ** The window system (GLFW) *)

(** A [GLFWwindow*] is null or the one window of the program. *)
Inductive Window := the_window.

(** [glfwCreateWindow]: null when the window or its context cannot be
    created; a new window has its close flag cleared. *)
Definition glfwCreateWindow (env : Env) (width height : Z) (w : World)
  : option Window * World :=
  if create_window_ok env
  then (Some the_window,
        emit (EvCreateWindow width height true) (with_should_close false w))
  else (None, emit (EvCreateWindow width height false) w).

(** [glfwMakeContextCurrent]: returns nothing; a null window detaches. *)
Definition glfwMakeContextCurrent (env : Env) (window : option Window)
  (w : World) : World :=
  emit (EvMakeContextCurrent (bool_decide (is_Some window)))
    (with_context (bool_decide (is_Some window) && make_current_ok env)
       (gl_loaded w) w).

(** [gladLoadGLLoader]: the GL entry points resolve only with a current
    context; the result of the call is discarded by the program. *)
Definition gladLoadGLLoader (w : World) : World :=
  emit EvLoadGL (with_context (context_current w) (context_current w) w).

Definition glfwWindowShouldClose (w : World) : bool := window_should_close w.

Definition glfwSetWindowShouldClose (w : World) : World :=
  emit EvSetWindowShouldClose (with_should_close true w).

(** The [i]-th [glfwPollEvents]: a close request of the user raises the
    close flag. *)
Definition glfwPollEvents (env : Env) (i : nat) (w : World) : World :=
  emit EvPollEvents
    (with_should_close (window_should_close w || close_requested env i) w).

(** ** The program *)

(** The [PARAMETERS] block of the file; [batching_test] is the
    [BATCHING_TEST] macro. *)
Record Config := {
  width : Z;
  height : Z;
  pointCount : Z;
  batchSize : Z;
  batching_test : bool
}.

Definition source_config : Config := {|
  width := 2560;
  height := 1440;
  pointCount := 67108864;
  batchSize := 16384;
  batching_test := true
|}.

(** [Initialize], lines 83-95.  No result is tested. *)
Definition Initialize (env : Env) (width height : Z) (w : World)
  : option Window * World :=
  let w := emit EvInit w in
  let w := emit (EvWindowHint (ContextVersionMajor 4)) w in
  let w := emit (EvWindowHint (ContextVersionMinor 6)) w in
  let w := emit (EvWindowHint OpenGLCoreProfile) w in
  let '(window, w) := glfwCreateWindow env width height w in
  let w := glfwMakeContextCurrent env window w in
  let w := gladLoadGLLoader w in
  (window, w).

(** [CreateShaderProgram], lines 97-134: two shader objects and the program
    object, in this order; compile and link status are not read. *)
Definition glCreateObject (w : World) : Z * World :=
  (Z.pos (gl_next_object w),
   with_next_object (Pos.succ (gl_next_object w)) w).

Definition CreateShaderProgram (w : World) : Z * World :=
  let '(vertexShader, w) := glCreateObject w in
  let '(fragmentShader, w) := glCreateObject w in
  let '(program, w) := glCreateObject w in
  (program, w).

(** [CreateVertexArrayObject], lines 161-173; the array buffer binding is
    left on [vbo]. *)
Definition CreateVertexArrayObject (vbo : Z) (w : World) : Z * World :=
  let vao := Z.pos (gl_next_vertex_array w) in
  let w := with_next_vertex_array (Pos.succ (gl_next_vertex_array w)) w in
  let w := glBindBuffer vbo w in
  (vao, w).

(** [glDeleteBuffers(1, &vbo)]: the store of [vbo] is released. *)
Definition glDeleteBuffers (vbo : Z) (w : World) : World :=
  emit (EvDeleteBuffers vbo)
    (with_buffers
       (match buffer_name vbo with
        | Some p => delete p (gl_buffers w)
        | None => gl_buffers w
        end) w).

(** [Shutdown], lines 198-202. *)
Definition Shutdown (w : World) : World :=
  emit EvTerminate (emit EvDestroyWindow w).

Section Source.

Context {R : RandomLibrary}.

(** The body shared by both fill loops,
    [for (unsigned int i = 0; i < n; i++) {
       buffer.push_back(xDistribution(engine));
       buffer.push_back(yDistribution(engine)); }],
    for distributions over [xlo, xhi) and [ylo, yhi). *)
Fixpoint fill_points (n : nat) (xlo xhi ylo yhi : Float32.t)
  (g : engine) (buffer : list Float32.t) : list Float32.t * engine :=
  match n with
  | O => (buffer, g)
  | S n' =>
      let '(x, g) := uniform_real xlo xhi g in
      let buffer := buffer ++ [x] in
      let '(y, g) := uniform_real ylo yhi g in
      let buffer := buffer ++ [y] in
      fill_points n' xlo xhi ylo yhi g buffer
  end.

(** The vector [buffer] of [CreateRandomPointBuffer] after its loop,
    lines 138-149.  [reserve(count * 2)] changes no content. *)
Definition CreateRandomPointBuffer_buffer (count : Z) : list Float32.t :=
  fst (fill_points (Z.to_nat count)
         Float32.neg_one Float32.zero Float32.neg_one Float32.one
         engine_default []).

(** [CreateRandomPointBuffer], lines 136-159. *)
Definition CreateRandomPointBuffer (count : Z) (w : World) : Z * World :=
  let buffer := CreateRandomPointBuffer_buffer count in
  let '(vbo, w) := glGenBuffers w in
  let w := glBindBuffer vbo w in
  let w := glBufferData (usize (Z.of_nat (length buffer) * sizeof_float))
             (vector_bytes buffer) w in
  let w := glBindBuffer 0 w in
  (vbo, w).

(** The vector [buffer] of [AlterBuffer] after its loop, lines 177-188. *)
Definition AlterBuffer_buffer (batchSize seed : Z) : list Float32.t :=
  fst (fill_points (Z.to_nat batchSize)
         Float32.zero Float32.one Float32.neg_one Float32.one
         (engine_seeded seed) []).

(** [AlterBuffer], lines 175-196.  [offset] is passed by reference: the
    new value is returned.  [offset * 8] and [batchSize * 8] are
    [unsigned int] products. *)
Definition AlterBuffer (vbo offset batchSize seed : Z) (w : World)
  : Z * World :=
  let buffer := AlterBuffer_buffer batchSize seed in
  let w := glBindBuffer vbo w in
  let w := glBufferSubData (u32 (offset * 8)) (u32 (batchSize * 8))
             (vector_bytes buffer) w in
  let w := glBindBuffer 0 w in
  (u32 (offset + batchSize), w).

(** The locals of [main] that the loop updates, lines 39-41. *)
Record Locals := {
  frame : Z;
  offset : Z;
  sum : Float32.t
}.

Definition initial_locals : Locals :=
  {| frame := 0; offset := 0; sum := Float32.zero |}.

(** One pass through the body of the [while], lines 44-72; [i] numbers
    the passes for the environment.  The trace notes each call of
    [AlterBuffer] with its arguments at the call site. *)
Definition loop_body (cfg : Config) (env : Env) (program vbo vao : Z)
  (i : nat) (l : Locals) (w : World) : Locals * World :=
  let w := glfwPollEvents env i w in
  let '(offset', w) :=
    if batching_test cfg then
      if negb (u32 (offset l + batchSize cfg) >? pointCount cfg)
      then AlterBuffer vbo (offset l) (batchSize cfg) (frame l)
             (emit (EvAlterBuffer (offset l) (batchSize cfg) (frame l)) w)
      else (offset l, glfwSetWindowShouldClose w)
    else (offset l, w) in
  let w := emit EvClear w in
  let w := emit (EvUseProgram program) w in
  let w := emit (EvBindVertexArray vao) w in
  let w := emit (EvDrawArrays 0 (pointCount cfg)) w in
  let w := emit EvSwapBuffers w in
  let ms := elapsed_ms env i in
  ({| frame := u32 (frame l + 1);
      offset := offset';
      sum := Float32.add (sum l) ms |}, w).

(** The [while], lines 42-73; [None] when [fuel] passes do not reach the
    exit. *)
Fixpoint main_loop (fuel : nat) (cfg : Config) (env : Env)
  (program vbo vao : Z) (i : nat) (l : Locals) (w : World)
  : option (Locals * World) :=
  match fuel with
  | O => None
  | S fuel' =>
      if glfwWindowShouldClose w then Some (l, w)
      else
        let '(l, w) := loop_body cfg env program vbo vao i l w in
        main_loop fuel' cfg env program vbo vao (S i) l w
  end.

(** The report, lines 75-76. *)
Definition report (l : Locals) (w : World) : World :=
  let w := print_line
             (OutFloat (Float32.div (sum l) (Float32.of_uint (frame l)))) w in
  print_line (OutUInt (frame l)) w.

(** Lines 35-80 of [main]: everything after the buffer and vertex array
    exist. *)
Definition benchmark (fuel : nat) (cfg : Config) (env : Env)
  (program vbo vao : Z) (w : World) : option (Locals * World) :=
  let w := emit (EvViewport 0 0 (width cfg) (height cfg)) w in
  let w := emit (EvClearColor Float32.zero Float32.zero Float32.zero
                   Float32.one) w in
  let w := emit EvEnableDepthTest w in
  match main_loop fuel cfg env program vbo vao O initial_locals w with
  | Some (l, w) =>
      let w := report l w in
      let w := emit (EvDeleteVertexArrays vao) w in
      let w := glDeleteBuffers vbo w in
      Some (l, Shutdown w)
  | None => None
  end.

(** How a run of [main] ends. *)
Inductive Outcome :=
| Exited (l : Locals) (w : World)
| Undefined (w : World)
| Running.

(** [main], lines 27-81.  The program tests neither the window nor the
    loader: the [match] below is not a branch of the source but the border
    of its defined behaviour, since every GL call made without loaded
    entry points goes through a null function pointer. *)
Definition main (fuel : nat) (cfg : Config) (env : Env) (w : World)
  : Outcome :=
  let '(window, w) := Initialize env (width cfg) (height cfg) w in
  match window, gl_loaded w with
  | Some _, true =>
      let '(program, w) := CreateShaderProgram w in
      let '(vbo, w) := CreateRandomPointBuffer (pointCount cfg) w in
      let '(vao, w) := CreateVertexArrayObject vbo w in
      match benchmark fuel cfg env program vbo vao w with
      | Some (l, w) => Exited l w
      | None => Running
      end
  | _, _ => Undefined w
  end.

End Source.

(** ** A reference random library

    One conforming [RandomLibrary], after libstdc++: the engine is
    [minstd_rand0] (state times 16807 modulo 2^31 - 1, default seed 1), a
    draw scales one engine output to the unit interval in binary32 and maps
    it affinely to [a, b).  The last test keeps the sample inside [a, b)
    where binary32 rounding would reach [b]. *)

Module MinStd.

Definition modulus : Z := 2147483647.
Definition multiplier : Z := 16807.

Definition seed (s : Z) : Z :=
  let x := s mod modulus in
  if x =? 0 then 1 else x.

Definition next (g : Z) : Z := (multiplier * g) mod modulus.

Definition below_one : Float32.t := S754_finite false 16777215 (-24).

Definition canonical (v : Z) : Float32.t :=
  let r := Float32.div (Float32.of_uint (v - 1))
             (Float32.of_uint (modulus - 1)) in
  if Float32.ltb r Float32.one then r else below_one.

Definition uniform (a b : Float32.t) (g : Z) : Float32.t * Z :=
  let g' := next g in
  let x := Float32.add (Float32.mul (canonical g') (Float32.sub b a)) a in
  (if Float32.within a b x then x else a, g').

End MinStd.

(** The reference library conforms to the range guarantee. *)
Definition MinStd_library : RandomLibrary.
Proof.
  refine {| engine := Z;
            engine_default := MinStd.seed 1;
            engine_seeded := MinStd.seed;
            uniform_real := MinStd.uniform |}.
  intros a b g Hab. unfold MinStd.uniform. cbn [fst].
  set (x := Float32.add _ a).
  destruct (Float32.within a b x) eqn:E; [exact E|].
  unfold Float32.within. rewrite Hab, andb_true_r.
  revert Hab. unfold Float32.ltb, Float32.leb, SFltb, SFleb.
  destruct a as [sa | sa | | sa ma ea]; simpl; try discriminate; try reflexivity.
  - destruct sa; reflexivity.
  - intros _. rewrite Z.compare_refl, Pos.compare_cont_refl.
    destruct sa; reflexivity.
Defined.

(** ** Statement vocabulary *)

(** The [AlterBuffer] calls of a trace, as (offset, batchSize, seed). *)
Fixpoint mutation_calls (t : list Event) : list (Z * Z * Z) :=
  match t with
  | [] => []
  | EvAlterBuffer o b s :: t' => (o, b, s) :: mutation_calls t'
  | _ :: t' => mutation_calls t'
  end.

(** The [glDrawArrays] calls of a trace, as (first, count). *)
Fixpoint draw_calls (t : list Event) : list (Z * Z) :=
  match t with
  | [] => []
  | EvDrawArrays f c :: t' => (f, c) :: draw_calls t'
  | _ :: t' => draw_calls t'
  end.

(** The test of line 49 and its negation, for a pass entered with the
    locals [l]. *)
Definition mutates (cfg : Config) (l : Locals) : bool :=
  batching_test cfg
  && negb (u32 (offset l + batchSize cfg) >? pointCount cfg).

Definition exhausted (cfg : Config) (l : Locals) : bool :=
  batching_test cfg && (u32 (offset l + batchSize cfg) >? pointCount cfg).

(** The largest sum [offset + batchSize] that line 49 forms in a run from
    [offset = 0], the one of the pass that finds the cursor exhausted, fits
    an [unsigned int]. *)
Definition sums_fit (cfg : Config) : Prop :=
  (pointCount cfg / batchSize cfg + 1) * batchSize cfg < 2 ^ 32.

(** The render pass of every frame, lines 60-66. *)
Definition render_events (cfg : Config) (program vao : Z) : list Event :=
  [ EvClear; EvUseProgram program; EvBindVertexArray vao;
    EvDrawArrays 0 (pointCount cfg); EvSwapBuffers ].

(** The calls of a frame that rewrites the window at [off]. *)
Definition mutating_frame (cfg : Config) (program vao off frm : Z)
  : list Event :=
  EvPollEvents :: EvAlterBuffer off (batchSize cfg) frm
    :: render_events cfg program vao.

(** The calls of the frame that finds the cursor exhausted. *)
Definition closing_frame (cfg : Config) (program vao : Z) : list Event :=
  EvPollEvents :: EvSetWindowShouldClose :: render_events cfg program vao.

(** [n] rewriting frames from cursor [off] and frame index [frm], then the
    closing frame. *)
Fixpoint run_events (n : nat) (cfg : Config) (program vao off frm : Z)
  : list Event :=
  match n with
  | O => closing_frame cfg program vao
  | S n' =>
      mutating_frame cfg program vao off frm
        ++ run_events n' cfg program vao (off + batchSize cfg) (frm + 1)
  end.

(** [s + ms_i + ... + ms_(i+n-1)], added in this order in binary32. *)
Fixpoint accumulate (env : Env) (n i : nat) (s : Float32.t) : Float32.t :=
  match n with
  | O => s
  | S n' => accumulate env n' (S i) (Float32.add s (elapsed_ms env i))
  end.

(** The states the [while] of [main] can be in when its condition is
    tested for the [i]-th time, from the locals [l0] and world [w0]. *)
Inductive reachable {R : RandomLibrary} (cfg : Config) (env : Env)
  (program vbo vao : Z) (l0 : Locals) (w0 : World)
  : nat -> Locals -> World -> Prop :=
| reach_start : reachable cfg env program vbo vao l0 w0 O l0 w0
| reach_pass i l w :
    reachable cfg env program vbo vao l0 w0 i l w ->
    glfwWindowShouldClose w = false ->
    reachable cfg env program vbo vao l0 w0 (S i)
      (fst (loop_body cfg env program vbo vao i l w))
      (snd (loop_body cfg env program vbo vao i l w)).

(** Environments and configurations used in examples. *)
Definition quiet_env : Env := {|
  create_window_ok := true;
  make_current_ok := true;
  close_requested := fun _ => false;
  elapsed_ms := fun _ => Float32.one
|}.

Definition closing_env : Env := {|
  create_window_ok := true;
  make_current_ok := true;
  close_requested := fun i => Nat.eqb i 0;
  elapsed_ms := fun _ => Float32.one
|}.

Definition failing_env : Env := {|
  create_window_ok := false;
  make_current_ok := false;
  close_requested := fun _ => false;
  elapsed_ms := fun _ => Float32.one
|}.

Definition small_config : Config := {|
  width := 64; height := 64;
  pointCount := 10; batchSize := 4;
  batching_test := true
|}.

Definition wrapping_config : Config := {|
  width := 2560; height := 1440;
  pointCount := 4294967295; batchSize := 3221225472;
  batching_test := true
|}.

(** A store of [size] bytes, all [xff]. *)
Definition blank_store (size : Z) : DataStore :=
  {| ds_size := size; ds_byte := fun _ => xff |}.

(** A world whose buffer 1 is a blank store of [size] bytes. *)
Definition world_with_buffer (size : Z) : World :=
  with_next_buffer 2%positive
    (with_buffers (<[1%positive := blank_store size]> ∅) initial_world).


(** The first two passes of the loop under [wrapping_config], with the
    reference library and no close request. *)
Definition wrap_pass1 : Locals * World :=
  loop_body (R := MinStd_library) wrapping_config quiet_env 1 1 1 0
    initial_locals initial_world.

Definition wrap_pass2 : Locals * World :=
  loop_body (R := MinStd_library) wrapping_config quiet_env 1 1 1 1
    (fst wrap_pass1) (snd wrap_pass1).

(** Frame count, cursor, number of rewrites and number of draws at the exit
    of the loop. *)
Definition loop_summary (r : option (Locals * World))
  : option (Z * Z * nat * nat) :=
  match r with
  | Some (l, w) =>
      Some (frame l, offset l, length (mutation_calls (trace w)),
            length (draw_calls (trace w)))
  | None => None
  end.

(** What a finished run of [main] shows: frame count, final cursor, the
    lines printed and the number of [AlterBuffer] calls. *)
Definition main_summary (o : Outcome)
  : option (Z * Z * list OutLine * nat) :=
  match o with
  | Exited l w =>
      Some (frame l, offset l, stdout w, length (mutation_calls (trace w)))
  | _ => None
  end.

(** The first [m] windows of a run from [offset = 0]: window [j] starts at
    point [j * bs] and is seeded with the frame index [j]. *)
Definition windows (bs : Z) (m : nat) : list (Z * Z * Z) :=
  map (fun j : nat => (Z.of_nat j * bs, bs, Z.of_nat j)) (seq 0 m).

(** The calls of a frame when [BATCHING_TEST] is off. *)
Definition plain_frame (cfg : Config) (program vao : Z) : list Event :=
  EvPollEvents :: render_events cfg program vao.

(** Byte [k] of a buffer that started as [ds0] and whose first [m] windows
    of [bs] points were rewritten, window [j] with seed [j]. *)
Definition rewritten_byte {R : RandomLibrary} (bs : Z) (m : Z)
  (ds0 : DataStore) (k : Z) : byte :=
  if (0 <=? k) && (k <? m * bs * 8)
  then nth (Z.to_nat (k mod (bs * 8)))
         (vector_bytes (AlterBuffer_buffer bs (k / (bs * 8)))) x00
  else ds_byte ds0 k.

(** No buffer object exists under a name that [glGenBuffers] has yet to
    hand out. *)
Definition buffers_fresh (w : World) : Prop :=
  forall p, (gl_next_buffer w <= p)%positive -> gl_buffers w !! p = None.

(** The user's first close request arrives at poll [k]. *)
Definition first_request (env : Env) (k : nat) : Prop :=
  (forall j, (j < k)%nat -> close_requested env j = false)
  /\ close_requested env k = true.

Definition closing_env_at (k : nat) : Env := {|
  create_window_ok := true;
  make_current_ok := true;
  close_requested := fun i => Nat.eqb i k;
  elapsed_ms := fun _ => Float32.one
|}.

Definition plain_config : Config := {|
  width := 64; height := 64;
  pointCount := 10; batchSize := 4;
  batching_test := false
|}.

Definition empty_batch_config : Config := {|
  width := 64; height := 64;
  pointCount := 10; batchSize := 0;
  batching_test := true
|}.

(** * Properties *)

(** ** The model on small inputs *)

Example wrap_around_u32 : u32 (3221225472 + 3221225472) = 2147483648.
Proof. reflexivity. Qed.

Example float_of_frame_count : Float32.of_uint 3 = S754_finite false 12582912 (-22).
Proof. reflexivity. Qed.

Example bytes_of_one : Float32.to_bytes Float32.one = [x00; x00; x80; x3f].
Proof. reflexivity. Qed.

Example zero_by_zero :
  Float32.div Float32.zero (Float32.of_uint 0) = S754_nan.
Proof. reflexivity. Qed.

(** Ten points in windows of four: two rewrites, three frames of one
    millisecond each, mean 1.0. *)
Example small_run :
  main_summary (main (R := MinStd_library) 4 small_config quiet_env
                  initial_world)
  = Some (3, 8, [OutFloat Float32.one; OutUInt 3], 2%nat).
Proof. vm_compute. reflexivity. Qed.

Example small_run_needs_fuel :
  main_summary (main (R := MinStd_library) 3 small_config quiet_env
                  initial_world)
  = None.
Proof. vm_compute. reflexivity. Qed.

(** With [BATCHING_TEST] off the cursor stays and only a close request
    ends the loop. *)
Example small_run_without_batching :
  main_summary
    (main (R := MinStd_library) 3
       {| width := 64; height := 64; pointCount := 10; batchSize := 4;
          batching_test := false |}
       closing_env initial_world)
  = Some (1, 0, [OutFloat Float32.one; OutUInt 1], 0%nat).
Proof. vm_compute. reflexivity. Qed.

(** ** Machine arithmetic *)

Lemma u32_small (z : Z) : 0 <= z < 2 ^ 32 -> u32 z = z.
Proof. intros H. unfold u32. apply Z.mod_small. exact H. Qed.

Lemma u32_range (z : Z) : 0 <= u32 z < 2 ^ 32.
Proof. unfold u32. apply Z.mod_pos_bound. reflexivity. Qed.

Lemma usize_small (z : Z) : 0 <= z < 2 ^ 64 -> usize z = z.
Proof. intros H. unfold usize. apply Z.mod_small. exact H. Qed.

(** ** Vectors of floats as bytes *)

Lemma length_to_bytes (f : Float32.t) : length (Float32.to_bytes f) = 4%nat.
Proof. reflexivity. Qed.

Lemma length_vector_bytes (v : list Float32.t) :
  length (vector_bytes v) = (4 * length v)%nat.
Proof.
  induction v as [|f v IH]; [reflexivity|].
  unfold vector_bytes in *. cbn [flat_map].
  rewrite length_app, IH, length_to_bytes. cbn [length]. lia.
Qed.

(** ** The fill loop *)

Section FillLoop.

Context {R : RandomLibrary}.
Variables xlo xhi ylo yhi : Float32.t.

Lemma fill_points_app (n : nat) (g : engine) (buf : list Float32.t) :
  exists tail,
    fst (fill_points n xlo xhi ylo yhi g buf) = buf ++ tail
    /\ length tail = (2 * n)%nat.
Proof.
  revert g buf. induction n as [|n IH]; intros g buf; cbn [fill_points].
  - exists []. rewrite app_nil_r. split; reflexivity.
  - destruct (uniform_real xlo xhi g) as [x g1].
    destruct (uniform_real ylo yhi g1) as [y g2].
    destruct (IH g2 ((buf ++ [x]) ++ [y])) as (tail & E & L).
    exists (x :: y :: tail). rewrite E, <- !app_assoc. cbn [app length].
    split; [reflexivity | lia].
Qed.

Lemma fill_points_length (n : nat) (g : engine) (buf : list Float32.t) :
  length (fst (fill_points n xlo xhi ylo yhi g buf))
  = (length buf + 2 * n)%nat.
Proof.
  destruct (fill_points_app n g buf) as (tail & E & L).
  rewrite E, length_app, L. reflexivity.
Qed.

(** Slots [2i] and [2i+1] past the initial content hold the [i]-th x draw
    and the y draw made right after it on the same engine. *)
Lemma fill_points_pair (n : nat) (g : engine) (buf : list Float32.t)
  (i : nat) :
  (i < n)%nat ->
  exists gx,
    fst (fill_points n xlo xhi ylo yhi g buf) !! (length buf + 2 * i)%nat
      = Some (fst (uniform_real xlo xhi gx))
    /\ fst (fill_points n xlo xhi ylo yhi g buf) !! (length buf + 2 * i + 1)%nat
      = Some (fst (uniform_real ylo yhi (snd (uniform_real xlo xhi gx)))).
Proof.
  revert g buf i. induction n as [|n IH]; intros g buf i Hi; [lia|].
  cbn [fill_points].
  destruct (uniform_real xlo xhi g) as [x g1] eqn:Ex.
  destruct (uniform_real ylo yhi g1) as [y g2] eqn:Ey.
  destruct i as [|i].
  - exists g. rewrite Ex. cbn [fst snd]. rewrite Ey. cbn [fst].
    destruct (fill_points_app n g2 ((buf ++ [x]) ++ [y])) as (tail & E & _).
    rewrite E, <- !app_assoc. cbn [app].
    split.
    + rewrite lookup_app_r by lia.
      replace (length buf + 2 * 0 - length buf)%nat with 0%nat by lia.
      reflexivity.
    + rewrite lookup_app_r by lia.
      replace (length buf + 2 * 0 + 1 - length buf)%nat with 1%nat by lia.
      reflexivity.
  - destruct (IH g2 ((buf ++ [x]) ++ [y]) i ltac:(lia)) as (gx & Hx & Hy).
    exists gx. rewrite !length_app in Hx, Hy. cbn [length] in Hx, Hy.
    replace (length buf + 2 * S i)%nat
      with (length buf + 1 + 1 + 2 * i)%nat by lia.
    split; assumption.
Qed.

End FillLoop.

(** ** Buffer objects *)

Section Buffers.

Context {R : RandomLibrary}.

Lemma CreateRandomPointBuffer_buffer_length (count : Z) :
  0 <= count ->
  Z.of_nat (length (CreateRandomPointBuffer_buffer count)) = 2 * count.
Proof.
  intros H. unfold CreateRandomPointBuffer_buffer.
  rewrite fill_points_length. cbn [length]. lia.
Qed.

Lemma AlterBuffer_buffer_length (batchSize seed : Z) :
  0 <= batchSize ->
  Z.of_nat (length (AlterBuffer_buffer batchSize seed)) = 2 * batchSize.
Proof.
  intros H. unfold AlterBuffer_buffer.
  rewrite fill_points_length. cbn [length]. lia.
Qed.

Lemma CreateRandomPointBuffer_store (count : Z) (w : World) :
  buffer_store (fst (CreateRandomPointBuffer count w))
    (snd (CreateRandomPointBuffer count w))
  = Some (store_of_bytes
            (usize (Z.of_nat (length (CreateRandomPointBuffer_buffer count))
                    * sizeof_float))
            (vector_bytes (CreateRandomPointBuffer_buffer count))).
Proof.
  unfold CreateRandomPointBuffer, glGenBuffers, glBindBuffer, glBufferData,
    buffer_store.
  cbn [fst snd gl_array_buffer with_array_buffer with_next_buffer
       buffer_name].
  set (size := usize _).
  assert (Hs : 0 <= size) by (apply Z.mod_pos_bound; reflexivity).
  apply Z.leb_le in Hs. rewrite Hs.
  cbn [fst snd gl_buffers with_buffers with_array_buffer with_next_buffer].
  apply lookup_insert_eq.
Qed.

(** What a call of [AlterBuffer] does to the store of [vbo] when the
    range it passes to [glBufferSubData] fits, and to the other buffers
    in any case. *)
Lemma AlterBuffer_store (vbo offset batchSize seed : Z) (w : World)
  (ds : DataStore) :
  buffer_store vbo w = Some ds ->
  u32 (offset * 8) + u32 (batchSize * 8) <= ds_size ds ->
  buffer_store vbo (snd (AlterBuffer vbo offset batchSize seed w))
  = Some (store_write (u32 (offset * 8)) (u32 (batchSize * 8))
            (vector_bytes (AlterBuffer_buffer batchSize seed)) ds).
Proof.
  intros Hds Hfit.
  unfold AlterBuffer, glBindBuffer, glBufferSubData, buffer_store in *.
  cbn [fst snd gl_array_buffer gl_buffers with_array_buffer].
  destruct (buffer_name vbo) as [p|]; [|discriminate].
  rewrite Hds.
  pose proof (u32_range (offset * 8)) as Ho.
  pose proof (u32_range (batchSize * 8)) as Hb.
  destruct (0 <=? u32 (offset * 8)) eqn:E1; [|apply Z.leb_gt in E1; lia].
  destruct (0 <=? u32 (batchSize * 8)) eqn:E2; [|apply Z.leb_gt in E2; lia].
  destruct (u32 (offset * 8) + u32 (batchSize * 8) <=? ds_size ds) eqn:E3;
    [|apply Z.leb_gt in E3; lia].
  cbn [andb gl_buffers with_buffers with_array_buffer].
  apply lookup_insert_eq.
Qed.

Lemma AlterBuffer_other_buffers (vbo offset batchSize seed : Z) (w : World)
  (p : positive) :
  buffer_name vbo <> Some p ->
  gl_buffers (snd (AlterBuffer vbo offset batchSize seed w)) !! p
  = gl_buffers w !! p.
Proof.
  intros Hp.
  unfold AlterBuffer, glBindBuffer, glBufferSubData.
  cbn [fst snd gl_array_buffer gl_buffers with_array_buffer].
  destruct (buffer_name vbo) as [q|]; [|reflexivity].
  destruct (gl_buffers w !! q) as [ds|]; [|reflexivity].
  destruct (_ && _); [|reflexivity].
  cbn [gl_buffers with_buffers with_array_buffer].
  apply lookup_insert_ne. congruence.
Qed.

Lemma AlterBuffer_offset (vbo offset batchSize seed : Z) (w : World) :
  fst (AlterBuffer vbo offset batchSize seed w) = u32 (offset + batchSize).
Proof. reflexivity. Qed.

End Buffers.

(** ** One pass of the loop *)

Section LoopBody.

Context {R : RandomLibrary}.
Variables (cfg : Config) (env : Env) (program vbo vao : Z).

Lemma loop_body_frame (i : nat) (l : Locals) (w : World) :
  frame (fst (loop_body cfg env program vbo vao i l w)) = u32 (frame l + 1).
Proof.
  unfold loop_body.
  destruct (batching_test cfg); [destruct (negb _)|]; reflexivity.
Qed.

Lemma loop_body_sum (i : nat) (l : Locals) (w : World) :
  sum (fst (loop_body cfg env program vbo vao i l w))
  = Float32.add (sum l) (elapsed_ms env i).
Proof.
  unfold loop_body.
  destruct (batching_test cfg); [destruct (negb _)|]; reflexivity.
Qed.

Lemma loop_body_offset (i : nat) (l : Locals) (w : World) :
  offset (fst (loop_body cfg env program vbo vao i l w))
  = if mutates cfg l then u32 (offset l + batchSize cfg) else offset l.
Proof.
  unfold loop_body, mutates.
  destruct (batching_test cfg); [destruct (negb _)|]; reflexivity.
Qed.

Lemma loop_body_should_close (i : nat) (l : Locals) (w : World) :
  window_should_close (snd (loop_body cfg env program vbo vao i l w))
  = window_should_close w || close_requested env i || exhausted cfg l.
Proof.
  unfold loop_body, exhausted.
  destruct (batching_test cfg);
    [destruct (u32 (offset l + batchSize cfg) >? pointCount cfg)|];
    cbn [negb andb fst snd];
    rewrite ?orb_false_r, ?orb_true_r; try reflexivity.
  unfold AlterBuffer, glBindBuffer, glBufferSubData.
  cbn [fst snd gl_array_buffer gl_buffers with_array_buffer emit].
  destruct (buffer_name vbo) as [q|]; [|reflexivity].
  destruct (gl_buffers _ !! q) as [ds|]; [|reflexivity].
  destruct (_ && _); reflexivity.
Qed.

Lemma loop_body_stdout (i : nat) (l : Locals) (w : World) :
  stdout (snd (loop_body cfg env program vbo vao i l w)) = stdout w.
Proof.
  unfold loop_body.
  destruct (batching_test cfg);
    [destruct (negb _)|]; cbn [fst snd]; try reflexivity.
  unfold AlterBuffer, glBindBuffer, glBufferSubData.
  cbn [fst snd gl_array_buffer gl_buffers with_array_buffer emit].
  destruct (buffer_name vbo) as [q|]; [|reflexivity].
  destruct (gl_buffers _ !! q) as [ds|]; [|reflexivity].
  destruct (_ && _); reflexivity.
Qed.

Lemma loop_body_trace (i : nat) (l : Locals) (w : World) :
  trace (snd (loop_body cfg env program vbo vao i l w))
  = trace w
    ++ (if mutates cfg l
        then mutating_frame cfg program vao (offset l) (frame l)
        else if exhausted cfg l
             then closing_frame cfg program vao
             else EvPollEvents :: render_events cfg program vao).
Proof.
  unfold loop_body, mutates, exhausted, mutating_frame, closing_frame,
    render_events.
  destruct (batching_test cfg);
    [destruct (u32 (offset l + batchSize cfg) >? pointCount cfg)|];
    cbn [negb andb fst snd emit trace glfwPollEvents
         glfwSetWindowShouldClose with_should_close];
    rewrite <- ?app_assoc; try reflexivity.
  unfold AlterBuffer, glBindBuffer, glBufferSubData.
  cbn [fst snd gl_array_buffer gl_buffers with_array_buffer emit trace].
  destruct (buffer_name vbo) as [q|];
    [destruct (gl_buffers _ !! q) as [ds|]; [destruct (_ && _)|]|];
    cbn [trace emit glfwPollEvents with_buffers with_array_buffer
         with_should_close];
    rewrite <- ?app_assoc; reflexivity.
Qed.

End LoopBody.

(** ** The loop *)

(** The sums fit whenever [pointCount + batchSize] does, as with the
    constants of the program. *)
Lemma sums_fit_of_sum (cfg : Config) :
  0 < batchSize cfg ->
  0 <= pointCount cfg ->
  pointCount cfg + batchSize cfg < 2 ^ 32 ->
  sums_fit cfg.
Proof.
  intros Hs Hp Hw. unfold sums_fit.
  pose proof (Z.mul_div_le (pointCount cfg) _ Hs). nia.
Qed.

Lemma source_config_sums_fit : sums_fit source_config.
Proof. vm_compute. reflexivity. Qed.

Lemma locals_eq (a b : Locals) :
  frame a = frame b -> offset a = offset b -> sum a = sum b -> a = b.
Proof. destruct a, b; cbn; intros; subst; reflexivity. Qed.

Lemma mutation_calls_app (s t : list Event) :
  mutation_calls (s ++ t) = mutation_calls s ++ mutation_calls t.
Proof.
  induction s as [|e s IH]; [reflexivity|].
  destruct e; cbn [app mutation_calls]; rewrite IH; reflexivity.
Qed.

Lemma draw_calls_app (s t : list Event) :
  draw_calls (s ++ t) = draw_calls s ++ draw_calls t.
Proof.
  induction s as [|e s IH]; [reflexivity|].
  destruct e; cbn [app draw_calls]; rewrite IH; reflexivity.
Qed.


Lemma mutation_calls_run_events (n : nat) (cfg : Config)
  (program vao off frm : Z) :
  0 <= batchSize cfg ->
  length (mutation_calls (run_events n cfg program vao off frm)) = n
  /\ Forall (fun c => off <= c.1.1
                     /\ c.1.1 + c.1.2 <= off + Z.of_nat n * batchSize cfg)
       (mutation_calls (run_events n cfg program vao off frm)).
Proof.
  intros Hb. revert off frm.
  induction n as [|n IH]; intros off frm.
  - split; [reflexivity | constructor].
  - cbn [run_events]. rewrite mutation_calls_app.
    destruct (IH (off + batchSize cfg) (frm + 1)) as [L F].
    cbn [mutating_frame render_events mutation_calls app length].
    split; [rewrite L; reflexivity|].
    constructor.
    + cbn [fst snd]. nia.
    + eapply Forall_impl; [exact F|]. intros c [H1 H2]. nia.
Qed.

Section Loop.

Context {R : RandomLibrary}.
Variables (cfg : Config) (env : Env) (program vbo vao : Z).

Lemma main_loop_S (fuel i : nat) (l : Locals) (w : World) :
  main_loop (S fuel) cfg env program vbo vao i l w
  = if window_should_close w then Some (l, w)
    else main_loop fuel cfg env program vbo vao (S i)
           (fst (loop_body cfg env program vbo vao i l w))
           (snd (loop_body cfg env program vbo vao i l w)).
Proof.
  cbn [main_loop]. unfold glfwWindowShouldClose.
  destruct (loop_body cfg env program vbo vao i l w). reflexivity.
Qed.

(** When the loop returns, it returns a reachable state whose close flag
    is raised. *)
Lemma main_loop_reachable (l0 : Locals) (w0 : World) (fuel : nat) :
  forall i l w l' w',
    reachable cfg env program vbo vao l0 w0 i l w ->
    main_loop fuel cfg env program vbo vao i l w = Some (l', w') ->
    window_should_close w' = true
    /\ exists j, reachable cfg env program vbo vao l0 w0 j l' w'.
Proof.
  induction fuel as [|fuel IH]; intros i l w l' w' Hr Hm; [discriminate|].
  rewrite main_loop_S in Hm.
  destruct (window_should_close w) eqn:Hc.
  - injection Hm as <- <-. split; [exact Hc | exists i; exact Hr].
  - eapply IH; [|exact Hm]. apply reach_pass; assumption.
Qed.

Lemma main_loop_stdout (fuel : nat) :
  forall i l w l' w',
    main_loop fuel cfg env program vbo vao i l w = Some (l', w') ->
    stdout w' = stdout w.
Proof.
  induction fuel as [|fuel IH]; intros i l w l' w' Hm; [discriminate|].
  rewrite main_loop_S in Hm.
  destruct (window_should_close w).
  - injection Hm as <- <-. reflexivity.
  - rewrite (IH _ _ _ _ _ Hm). apply loop_body_stdout.
Qed.

(** The cursor stays within the buffer, for any parameters and any
    schedule of close requests. *)
Lemma reachable_offset_range (l0 : Locals) (w0 : World) :
  0 <= offset l0 <= pointCount cfg ->
  forall i l w,
    reachable cfg env program vbo vao l0 w0 i l w ->
    0 <= offset l <= pointCount cfg.
Proof.
  intros H0 i l w Hr. induction Hr as [|i l w Hr IH Hc]; [exact H0|].
  rewrite loop_body_offset. unfold mutates.
  destruct (batching_test cfg); cbn [andb]; [|exact IH].
  destruct (u32 (offset l + batchSize cfg) >? pointCount cfg) eqn:E;
    cbn [negb]; [exact IH|].
  pose proof (u32_range (offset l + batchSize cfg)).
  rewrite Z.gtb_ltb in E. apply Z.ltb_ge in E. lia.
Qed.

(** Without wrap-around the test of line 49 is the mathematical one. *)
Lemma mutates_no_wrap (l : Locals) :
  batching_test cfg = true ->
  0 <= batchSize cfg ->
  0 <= offset l ->
  offset l + batchSize cfg < 2 ^ 32 ->
  mutates cfg l = (offset l + batchSize cfg <=? pointCount cfg)
  /\ exhausted cfg l = (pointCount cfg <? offset l + batchSize cfg)
  /\ u32 (offset l + batchSize cfg) = offset l + batchSize cfg.
Proof.
  intros Hb Hs Ho Hw. unfold mutates, exhausted. rewrite Hb. cbn [andb].
  rewrite u32_small by lia. rewrite Z.gtb_ltb.
  repeat split.
  destruct (Z.ltb_spec (pointCount cfg) (offset l + batchSize cfg));
    destruct (Z.leb_spec (offset l + batchSize cfg) (pointCount cfg));
    cbn [negb]; try reflexivity; lia.
Qed.

(** A cursor at a multiple of [batchSize] inside the buffer forms a sum
    that fits. *)
Lemma sums_fit_at (k : Z) :
  0 <= batchSize cfg ->
  is_u32 (pointCount cfg) ->
  sums_fit cfg ->
  0 <= k ->
  k * batchSize cfg <= pointCount cfg ->
  k * batchSize cfg + batchSize cfg < 2 ^ 32.
Proof.
  unfold sums_fit, is_u32. intros Hs Hp Hfit Hk Hle.
  destruct (Z.eq_dec (batchSize cfg) 0) as [E|E].
  - rewrite E in *. lia.
  - assert (k <= pointCount cfg / batchSize cfg)
      by (apply Z.div_le_lower_bound; lia).
    nia.
Qed.

(** From [offset = 0] the cursor is always a multiple of [batchSize], and
    the next sum fits. *)
Lemma reachable_sum_fits (w0 : World) :
  0 <= batchSize cfg ->
  is_u32 (pointCount cfg) ->
  sums_fit cfg ->
  forall i l w,
    reachable cfg env program vbo vao initial_locals w0 i l w ->
    (exists k, 0 <= k /\ offset l = k * batchSize cfg)
    /\ offset l + batchSize cfg < 2 ^ 32.
Proof.
  intros Hs Hp Hfit i l w Hr.
  pose proof (reachable_offset_range initial_locals w0
                ltac:(cbn; unfold is_u32 in Hp; lia)) as Hrange.
  assert (Hk : exists k, 0 <= k /\ offset l = k * batchSize cfg).
  { induction Hr as [|i l w Hr IH Hc].
    - exists 0. cbn. lia.
    - destruct IH as (k & Hk & Ek). specialize (Hrange _ _ _ Hr).
      rewrite loop_body_offset.
      destruct (mutates cfg l); [|exists k; split; assumption].
      exists (k + 1). split; [lia|].
      pose proof (sums_fit_at k Hs Hp Hfit Hk ltac:(lia)).
      rewrite u32_small by lia. lia. }
  split; [exact Hk|].
  destruct Hk as (k & Hk & Ek). specialize (Hrange _ _ _ Hr).
  rewrite Ek. apply sums_fit_at; try assumption. lia.
Qed.

(** Every rewrite so far started at a multiple of [batchSize] and ended
    inside the buffer, and the cursor is where the last one ended. *)
Lemma reachable_mutations (w0 : World) :
  batching_test cfg = true ->
  0 <= batchSize cfg ->
  is_u32 (pointCount cfg) ->
  sums_fit cfg ->
  mutation_calls (trace w0) = [] ->
  forall i l w,
    reachable cfg env program vbo vao initial_locals w0 i l w ->
    offset l
      = Z.of_nat (length (mutation_calls (trace w))) * batchSize cfg
    /\ Forall (fun c => c.1.2 = batchSize cfg
                       /\ c.1.1 + c.1.2 <= pointCount cfg)
         (mutation_calls (trace w)).
Proof.
  intros Hb Hs Hp Hw Ht i l w Hr.
  assert (Hrange : forall i l w,
             reachable cfg env program vbo vao initial_locals w0 i l w ->
             0 <= offset l <= pointCount cfg).
  { apply reachable_offset_range. cbn. unfold is_u32 in Hp. lia. }
  pose proof (reachable_sum_fits w0 Hs Hp Hw) as Hsum.
  induction Hr as [|i l w Hr IH Hc].
  - rewrite Ht. cbn. split; [reflexivity | constructor].
  - destruct IH as [IHo IHf]. specialize (Hrange _ _ _ Hr).
    destruct (Hsum _ _ _ Hr) as [_ Hf].
    destruct (mutates_no_wrap l Hb Hs ltac:(lia) Hf) as (Em & Ee & Eu).
    rewrite loop_body_offset, loop_body_trace, mutation_calls_app, Em, Ee.
    destruct (Z.leb_spec (offset l + batchSize cfg) (pointCount cfg)).
    + cbn [mutating_frame render_events mutation_calls].
      rewrite length_app, Eu. cbn [length]. split; [lia|].
      apply Forall_app. split; [exact IHf|].
      constructor; [cbn [fst snd]; lia | constructor].
    + destruct (Z.ltb_spec (pointCount cfg) (offset l + batchSize cfg));
        [|lia].
      cbn [closing_frame render_events mutation_calls].
      rewrite app_nil_r. split; assumption.
Qed.

End Loop.

(** ** A run without close requests *)

Section QuietRun.

Context {R : RandomLibrary}.
Variables (cfg : Config) (env : Env) (program vbo vao : Z).

Hypothesis batching : batching_test cfg = true.
Hypothesis batch_positive : 0 < batchSize cfg.
Hypothesis quiet : forall i, close_requested env i = false.

(** From a cursor with room for exactly [n] more windows the loop makes
    [n] rewriting passes and the closing pass, then leaves. *)
Lemma quiet_run (n : nat) :
  forall (extra i : nat) (l : Locals) (w : World),
    window_should_close w = false ->
    0 <= offset l ->
    offset l + Z.of_nat n * batchSize cfg <= pointCount cfg ->
    pointCount cfg < offset l + (Z.of_nat n + 1) * batchSize cfg ->
    offset l + (Z.of_nat n + 1) * batchSize cfg < 2 ^ 32 ->
    0 <= frame l ->
    frame l + Z.of_nat n + 1 < 2 ^ 32 ->
    exists w',
      main_loop (S (S n) + extra) cfg env program vbo vao i l w
      = Some ({| frame := frame l + Z.of_nat n + 1;
                 offset := offset l + Z.of_nat n * batchSize cfg;
                 sum := accumulate env (S n) i (sum l) |}, w')
      /\ trace w' = trace w ++ run_events n cfg program vao (offset l) (frame l)
      /\ window_should_close w' = true.
Proof.
  induction n as [|n IH]; intros extra i l w Hc Ho Hlo Hhi Hw Hf Hf2.
  - assert (Hr : 0 <= offset l <= pointCount cfg) by lia.
    destruct (mutates_no_wrap cfg l batching ltac:(lia) ltac:(lia)
                ltac:(nia)) as (Em & Ee & Eu).
    assert (Ex : (pointCount cfg <? offset l + batchSize cfg) = true)
      by (apply Z.ltb_lt; lia).
    assert (Ey : (offset l + batchSize cfg <=? pointCount cfg) = false)
      by (apply Z.leb_gt; lia).
    rewrite Ex in Ee. rewrite Ey in Em.
    set (lb := loop_body cfg env program vbo vao i l w).
    assert (Hflag : window_should_close (snd lb) = true).
    { unfold lb. rewrite loop_body_should_close, Hc, quiet, Ee.
      reflexivity. }
    exists (snd lb).
    change (S (S 0) + extra)%nat with (S (S extra)).
    rewrite main_loop_S, Hc. fold lb. rewrite main_loop_S, Hflag.
    split; [|split; [|reflexivity]].
    + f_equal. f_equal. apply locals_eq; cbn [frame offset sum]; unfold lb.
      * rewrite loop_body_frame, u32_small by lia. lia.
      * rewrite loop_body_offset, Em. lia.
      * rewrite loop_body_sum. reflexivity.
    + unfold lb. rewrite loop_body_trace, Em, Ee. reflexivity.
  - assert (Hr : 0 <= offset l <= pointCount cfg) by lia.
    destruct (mutates_no_wrap cfg l batching ltac:(lia) ltac:(lia)
                ltac:(nia)) as (Em & Ee & Eu).
    assert (Ex : (pointCount cfg <? offset l + batchSize cfg) = false)
      by (apply Z.ltb_ge; lia).
    assert (Ey : (offset l + batchSize cfg <=? pointCount cfg) = true)
      by (apply Z.leb_le; lia).
    rewrite Ex in Ee. rewrite Ey in Em.
    set (lb := loop_body cfg env program vbo vao i l w).
    assert (Hflag : window_should_close (snd lb) = false).
    { unfold lb. rewrite loop_body_should_close, Hc, quiet, Ee.
      reflexivity. }
    assert (Hfr : frame (fst lb) = frame l + 1).
    { unfold lb. rewrite loop_body_frame, u32_small by lia. reflexivity. }
    assert (Hof : offset (fst lb) = offset l + batchSize cfg).
    { unfold lb. rewrite loop_body_offset, Em. exact Eu. }
    assert (Hsm : sum (fst lb) = Float32.add (sum l) (elapsed_ms env i)).
    { unfold lb. apply loop_body_sum. }
    destruct (IH extra (S i) (fst lb) (snd lb) Hflag)
      as (w' & Hm & Ht & Hc'); try lia.
    exists w'.
    change (S (S (S n)) + extra)%nat with (S (S (S n) + extra)).
    rewrite main_loop_S, Hc. fold lb. rewrite Hm.
    split; [|split; [|exact Hc']].
    + f_equal. f_equal. apply locals_eq; cbn [frame offset sum accumulate].
      * lia.
      * lia.
      * rewrite Hsm. reflexivity.
    + rewrite Ht, Hof, Hfr. unfold lb. rewrite loop_body_trace, Em.
      cbn [run_events]. rewrite <- app_assoc. reflexivity.
Qed.

End QuietRun.

(** The program as configured, left alone by the user: 4096 rewrites, the
    closing frame, 4097 frames in all. *)
Lemma source_config_run {R : RandomLibrary} (env : Env)
  (program vbo vao : Z) (w0 : World) :
  (forall i, close_requested env i = false) ->
  window_should_close w0 = false ->
  exists l w,
    main_loop 4098 source_config env program vbo vao 0 initial_locals w0
    = Some (l, w)
    /\ frame l = 4097
    /\ offset l = 67108864
    /\ trace w = trace w0 ++ run_events 4096 source_config program vao 0 0.
Proof.
  intros Hq Hc.
  destruct (quiet_run source_config env program vbo vao eq_refl eq_refl Hq
              4096 0 0 initial_locals w0 Hc
              ltac:(vm_compute; discriminate) ltac:(vm_compute; discriminate)
              ltac:(vm_compute; reflexivity) ltac:(vm_compute; reflexivity)
              ltac:(vm_compute; discriminate) ltac:(vm_compute; reflexivity))
    as (w & Hm & Ht & _).
  change (S (S 4096) + 0)%nat with 4098%nat in Hm.
  eexists _, w. split; [exact Hm|].
  repeat split. exact Ht.
Qed.


(** ** The benchmark loop: number of rewrites *)

(** C1, amended.  In benchmark mode with [0 < batchSize] and
    [(pointCount / batchSize + 1) * batchSize < 2^32] (the sums of line 49
    do not wrap around; [pointCount + batchSize < 2^32] is enough), from
    [offset = 0]: whatever the close requests, every [AlterBuffer] call made
    so far was entered with [offset + batchSize <= pointCount], and there are
    at most [pointCount / batchSize] of them; and when no close request
    arrives, the loop makes exactly [pointCount / batchSize] such calls, then
    the pass that raises the close flag, and leaves. *)
Theorem benchmark_loop_mutation_count {R : RandomLibrary} (cfg : Config)
  (env : Env) (program vbo vao : Z) (w0 : World) :
  batching_test cfg = true ->
  0 < batchSize cfg ->
  0 <= pointCount cfg ->
  sums_fit cfg ->
  window_should_close w0 = false ->
  mutation_calls (trace w0) = [] ->
  (forall i l w,
      reachable cfg env program vbo vao initial_locals w0 i l w ->
      Forall (fun c => c.1.1 + c.1.2 <= pointCount cfg)
        (mutation_calls (trace w))
      /\ Z.of_nat (length (mutation_calls (trace w)))
         <= pointCount cfg / batchSize cfg)
  /\ ((forall i, close_requested env i = false) ->
      forall fuel,
        (Z.to_nat (pointCount cfg / batchSize cfg) + 2 <= fuel)%nat ->
        exists l w,
          main_loop fuel cfg env program vbo vao 0 initial_locals w0
          = Some (l, w)
          /\ trace w
             = trace w0
               ++ run_events (Z.to_nat (pointCount cfg / batchSize cfg))
                    cfg program vao 0 0
          /\ Z.of_nat (length (mutation_calls (trace w)))
             = pointCount cfg / batchSize cfg
          /\ window_should_close w = true).
Proof.
  intros Hb Hs Hp Hw Hc Ht.
  pose proof (Z.div_pos _ _ Hp Hs) as Hq.
  pose proof (Z.mul_div_le (pointCount cfg) _ Hs) as Hlo.
  pose proof (Z.mul_succ_div_gt (pointCount cfg) _ Hs) as Hhi.
  assert (Hu : is_u32 (pointCount cfg))
    by (unfold is_u32, sums_fit in *; lia).
  unfold sums_fit in Hw.
  split.
  - intros i l w Hr.
    destruct (reachable_mutations cfg env program vbo vao w0 Hb
                ltac:(lia) Hu Hw Ht i l w Hr) as [Ho Hf].
    pose proof (reachable_offset_range cfg env program vbo vao
                  initial_locals w0 ltac:(cbn; lia) i l w Hr) as Hrange.
    split.
    + eapply Forall_impl; [exact Hf|]. intros c [_ H]. exact H.
    + apply Z.div_le_lower_bound; [exact Hs|]. lia.
  - intros Hquiet fuel Hfuel.
    set (n := Z.to_nat (pointCount cfg / batchSize cfg)) in *.
    assert (Hn : Z.of_nat n = pointCount cfg / batchSize cfg)
      by (unfold n; lia).
    destruct (quiet_run cfg env program vbo vao Hb Hs Hquiet n
                (fuel - (n + 2)) 0 initial_locals w0 Hc)
      as (w & Hm & Htr & Hcl); cbn [offset frame initial_locals]; try nia.
    replace (S (S n) + (fuel - (n + 2)))%nat with fuel in Hm by lia.
    cbn [offset frame sum initial_locals] in Hm, Htr.
    eexists _, w. split; [exact Hm|]. split; [exact Htr|].
    split; [|exact Hcl].
    rewrite Htr, mutation_calls_app, Ht. cbn [app].
    destruct (mutation_calls_run_events n cfg program vao 0 0 ltac:(lia))
      as [L _].
    rewrite L. exact Hn.
Qed.

(** The first two passes under [wrapping_config]: the second pass is
    entered with [offset + batchSize] beyond both [pointCount] and the
    [unsigned int] range, and rewrites all the same. *)
Lemma wrap_pass1_facts :
  offset (fst wrap_pass1) = 3221225472
  /\ frame (fst wrap_pass1) = 1
  /\ window_should_close (snd wrap_pass1) = false
  /\ trace (snd wrap_pass1) = mutating_frame wrapping_config 1 1 0 0.
Proof.
  unfold wrap_pass1.
  rewrite loop_body_offset, loop_body_frame, loop_body_should_close,
    loop_body_trace.
  repeat split; vm_compute; reflexivity.
Qed.

Lemma wrap_pass2_facts :
  mutates wrapping_config (fst wrap_pass1) = true
  /\ offset (fst wrap_pass2) = 2147483648
  /\ frame (fst wrap_pass2) = 2
  /\ window_should_close (snd wrap_pass2) = false
  /\ trace (snd wrap_pass2)
     = mutating_frame wrapping_config 1 1 0 0
       ++ mutating_frame wrapping_config 1 1 3221225472 1.
Proof.
  destruct wrap_pass1_facts as (Eo & Ef & Ec & Et).
  assert (Em : mutates wrapping_config (fst wrap_pass1) = true).
  { unfold mutates. rewrite Eo. vm_compute. reflexivity. }
  assert (Ee : exhausted wrapping_config (fst wrap_pass1) = false).
  { unfold exhausted. rewrite Eo. vm_compute. reflexivity. }
  unfold wrap_pass2.
  rewrite loop_body_offset, loop_body_frame, loop_body_should_close,
    loop_body_trace, Em, Ee, Eo, Ef, Ec, Et.
  repeat split; vm_compute; reflexivity.
Qed.

Lemma wrap_pass2_reachable :
  reachable (R := MinStd_library) wrapping_config quiet_env 1 1 1
    initial_locals initial_world 2 (fst wrap_pass2) (snd wrap_pass2).
Proof.
  unfold wrap_pass2. apply reach_pass.
  - unfold wrap_pass1. apply reach_pass; [apply reach_start | reflexivity].
  - apply wrap_pass1_facts.
Qed.

Lemma benchmark_loop_mutation_count_witness :
  exists l w,
    main_loop (R := MinStd_library) 4 small_config quiet_env 1 1 1 0
      initial_locals (world_with_buffer 80) = Some (l, w)
    /\ Z.of_nat (length (mutation_calls (trace w))) = 2
    /\ window_should_close w = true.
Proof.
  destruct (benchmark_loop_mutation_count (R := MinStd_library)
              small_config quiet_env 1 1 1 (world_with_buffer 80)
              eq_refl eq_refl ltac:(cbn; lia) eq_refl
              eq_refl eq_refl) as [_ H].
  destruct (H (fun _ => eq_refl) 4%nat ltac:(vm_compute; lia))
    as (l & w & Hm & _ & Hn & Hc).
  exists l, w. repeat split; assumption.
Defined.

(** C1 as stated fails in two ways.  With [pointCount = 2^32 - 1] and
    [batchSize = 3 * 2^30] the sum of line 49 wraps: the second pass calls
    [AlterBuffer] at offset 3221225472 although offset + batchSize exceeds
    [pointCount], and makes two calls where [pointCount / batchSize] is 1.
    With [pointCount = 10], [batchSize = 4] and a close request at the first
    poll the loop leaves after one call, not two, with the cursor at 4. *)
Lemma benchmark_loop_mutation_count_counterexample :
  (reachable (R := MinStd_library) wrapping_config quiet_env 1 1 1
     initial_locals initial_world 2 (fst wrap_pass2) (snd wrap_pass2)
   /\ mutation_calls (trace (snd wrap_pass2))
      = [(0, 3221225472, 0); (3221225472, 3221225472, 1)]
   /\ pointCount wrapping_config < 3221225472 + 3221225472
   /\ pointCount wrapping_config / batchSize wrapping_config = 1)
  /\ (loop_summary
        (main_loop (R := MinStd_library) 3 small_config closing_env 1 1 1 0
           initial_locals (world_with_buffer 80))
      = Some (1, 4, 1%nat, 1%nat)
      /\ pointCount small_config / batchSize small_config = 2).
Proof.
  split; [split; [exact wrap_pass2_reachable|]|].
  - destruct wrap_pass2_facts as (_ & _ & _ & _ & Et). rewrite Et.
    repeat split; vm_compute; reflexivity.
  - split; vm_compute; reflexivity.
Qed.

(** ** The cursor *)

(** C3, amended.  In every state the loop can reach from [offset = 0], for
    any parameters and any close requests, [0 <= offset <= pointCount]; a
    pass calls [AlterBuffer], once, exactly when the test of line 49 lets
    it ([mutates]); a pass that does not leaves the cursor alone; and when
    [(pointCount / batchSize + 1) * batchSize < 2^32] (the sums of line 49
    do not wrap around) a pass that calls it advances the cursor by exactly
    [batchSize], so the cursor never decreases or wraps. *)
Theorem cursor_invariant {R : RandomLibrary} (cfg : Config) (env : Env)
  (program vbo vao : Z) (w0 : World) (i : nat) (l : Locals) (w : World) :
  is_u32 (pointCount cfg) ->
  reachable cfg env program vbo vao initial_locals w0 i l w ->
  0 <= offset l <= pointCount cfg
  /\ mutation_calls (trace (snd (loop_body cfg env program vbo vao i l w)))
     = mutation_calls (trace w)
       ++ (if mutates cfg l
           then [(offset l, batchSize cfg, frame l)] else [])
  /\ (mutates cfg l = false ->
      offset (fst (loop_body cfg env program vbo vao i l w)) = offset l)
  /\ (0 <= batchSize cfg ->
      sums_fit cfg ->
      offset l <= offset (fst (loop_body cfg env program vbo vao i l w))
      /\ (mutates cfg l = true ->
          offset (fst (loop_body cfg env program vbo vao i l w))
          = offset l + batchSize cfg)).
Proof.
  intros Hp Hr.
  pose proof (reachable_offset_range cfg env program vbo vao
                initial_locals w0 ltac:(cbn; unfold is_u32 in Hp; lia)
                i l w Hr) as Hrange.
  split; [exact Hrange|]. split.
  { rewrite loop_body_trace, mutation_calls_app.
    destruct (mutates cfg l); [reflexivity|].
    destruct (exhausted cfg l); reflexivity. }
  rewrite loop_body_offset. split.
  - intros ->. reflexivity.
  - intros Hs Hw.
    destruct (reachable_sum_fits cfg env program vbo vao w0 Hs Hp Hw
                i l w Hr) as [_ Hf].
    destruct (mutates cfg l) eqn:Em.
    + rewrite u32_small by lia. split; [lia | reflexivity].
    + split; [lia | discriminate].
Qed.

Lemma cursor_invariant_witness :
  offset (fst (loop_body (R := MinStd_library) small_config quiet_env 1 1 1
                 0 initial_locals (world_with_buffer 80)))
  = offset initial_locals + batchSize small_config.
Proof.
  destruct (cursor_invariant (R := MinStd_library) small_config quiet_env
              1 1 1 (world_with_buffer 80) 0 initial_locals
              (world_with_buffer 80)
              ltac:(vm_compute; split; [discriminate | reflexivity])
              (reach_start _ _ _ _ _ _ _)) as (_ & _ & _ & H).
  destruct (H ltac:(vm_compute; discriminate) eq_refl) as [_ H'].
  apply H'. reflexivity.
Defined.

(** C3 as stated fails where the sum wraps: with [pointCount = 2^32 - 1]
    and [batchSize = 3 * 2^30] the state after the first pass is reachable
    with the cursor at 3221225472, the second pass calls [AlterBuffer], and
    the cursor comes out at 2147483648: it wrapped and decreased. *)
Lemma cursor_invariant_counterexample :
  reachable (R := MinStd_library) wrapping_config quiet_env 1 1 1
    initial_locals initial_world 2 (fst wrap_pass2) (snd wrap_pass2)
  /\ mutates wrapping_config (fst wrap_pass1) = true
  /\ offset (fst wrap_pass1) = 3221225472
  /\ offset (fst wrap_pass2) = 2147483648.
Proof.
  destruct wrap_pass1_facts as (Eo & _).
  destruct wrap_pass2_facts as (Em & Eo2 & _).
  repeat split; try assumption. exact wrap_pass2_reachable.
Qed.

(** ** The closing frame *)





(** ** The report *)

Lemma setup_stdout {R : RandomLibrary} (env : Env) (cfg : Config)
  (w : World) :
  stdout (snd (Initialize env (width cfg) (height cfg) w)) = stdout w
  /\ stdout (snd (CreateShaderProgram w)) = stdout w
  /\ stdout (snd (CreateRandomPointBuffer (pointCount cfg) w)) = stdout w
  /\ forall vbo, stdout (snd (CreateVertexArrayObject vbo w)) = stdout w.
Proof.
  split; [|split; [|split]].
  - unfold Initialize, glfwCreateWindow. destruct (create_window_ok env);
      reflexivity.
  - reflexivity.
  - unfold CreateRandomPointBuffer, glGenBuffers, glBindBuffer, glBufferData.
    cbn [fst snd gl_array_buffer with_array_buffer with_next_buffer
         buffer_name].
    destruct (0 <=? _); reflexivity.
  - reflexivity.
Qed.



(** ** Start-up *)

(** C8, amended.  [Initialize] tests nothing: whether or not the window
    and its context can be created it makes the same calls, with one
    [glfwCreateWindow] and no second attempt, prints nothing, and returns
    the handle it got, null on failure; [main] goes on with it untested.
    When creation or activation failed, what [main] does next (GL calls
    through entry points that were never loaded) is undefined. *)
Theorem Initialize_unchecked {R : RandomLibrary} (env : Env) (cfg : Config)
  (w : World) (fuel : nat) :
  fst (Initialize env (width cfg) (height cfg) w)
  = (if create_window_ok env then Some the_window else None)
  /\ trace (snd (Initialize env (width cfg) (height cfg) w))
     = trace w
       ++ [EvInit; EvWindowHint (ContextVersionMajor 4);
           EvWindowHint (ContextVersionMinor 6);
           EvWindowHint OpenGLCoreProfile;
           EvCreateWindow (width cfg) (height cfg) (create_window_ok env);
           EvMakeContextCurrent (create_window_ok env); EvLoadGL]
  /\ stdout (snd (Initialize env (width cfg) (height cfg) w)) = stdout w
  /\ (create_window_ok env && make_current_ok env = false ->
      main fuel cfg env w
      = Undefined (snd (Initialize env (width cfg) (height cfg) w))).
Proof.
  unfold main, Initialize, glfwCreateWindow, glfwMakeContextCurrent,
    gladLoadGLLoader.
  destruct (create_window_ok env); destruct (make_current_ok env);
    cbn [fst snd emit trace stdout with_context with_should_close gl_loaded
         context_current andb bool_decide];
    rewrite <- ?app_assoc;
    repeat split; try discriminate; try reflexivity.
Qed.

Lemma Initialize_unchecked_witness :
  main (R := MinStd_library) 1 source_config failing_env initial_world
  = Undefined (snd (Initialize failing_env 2560 1440 initial_world)).
Proof.
  exact (proj2 (proj2 (proj2 (Initialize_unchecked (R := MinStd_library)
                                failing_env source_config initial_world 1)))
           eq_refl).
Defined.

(** C8 as stated fails: when [glfwCreateWindow] fails, [Initialize] does
    not stop there.  It still calls [glfwMakeContextCurrent] and the
    loader, prints no diagnostic and returns the null handle to [main]. *)
Lemma Initialize_unchecked_counterexample :
  fst (Initialize failing_env 2560 1440 initial_world) = None
  /\ stdout (snd (Initialize failing_env 2560 1440 initial_world)) = []
  /\ trace (snd (Initialize failing_env 2560 1440 initial_world))
     = [EvInit; EvWindowHint (ContextVersionMajor 4);
        EvWindowHint (ContextVersionMinor 6);
        EvWindowHint OpenGLCoreProfile;
        EvCreateWindow 2560 1440 false;
        EvMakeContextCurrent false; EvLoadGL].
Proof. repeat split. Qed.

(** ** The initial fill *)

(** C9.  For every [unsigned int] [count], the vector that
    [CreateRandomPointBuffer] uploads holds exactly [2 * count] floats, slot
    [2i] an x draw and slot [2i + 1] the y draw made right after it, and the
    buffer object it returns has a store of [count * 2 * sizeof(float)]
    bytes holding the bytes of that vector. *)
Theorem createBuffer_size {R : RandomLibrary} (count : Z) (w : World) :
  is_u32 count ->
  Z.of_nat (length (CreateRandomPointBuffer_buffer count)) = 2 * count
  /\ (forall i : nat,
        (i < Z.to_nat count)%nat ->
        exists g,
          CreateRandomPointBuffer_buffer count !! (2 * i)%nat
          = Some (fst (uniform_real Float32.neg_one Float32.zero g))
          /\ CreateRandomPointBuffer_buffer count !! (2 * i + 1)%nat
             = Some (fst (uniform_real Float32.neg_one Float32.one
                            (snd (uniform_real Float32.neg_one
                                    Float32.zero g)))))
  /\ buffer_size (fst (CreateRandomPointBuffer count w))
       (snd (CreateRandomPointBuffer count w))
     = Some (count * 2 * sizeof_float)
  /\ (forall k,
        0 <= k < count * 2 * sizeof_float ->
        buffer_byte (fst (CreateRandomPointBuffer count w)) k
          (snd (CreateRandomPointBuffer count w))
        = Some (nth (Z.to_nat k)
                  (vector_bytes (CreateRandomPointBuffer_buffer count)) x00)).
Proof.
  intros [Hlo Hhi].
  pose proof (CreateRandomPointBuffer_buffer_length count Hlo) as Hlen.
  assert (Hsize : usize (Z.of_nat (length (CreateRandomPointBuffer_buffer count))
                         * sizeof_float)
                  = count * 2 * sizeof_float).
  { rewrite Hlen. unfold sizeof_float. rewrite usize_small; lia. }
  split; [exact Hlen|]. split.
  - intros i Hi. unfold CreateRandomPointBuffer_buffer.
    apply (fill_points_pair Float32.neg_one Float32.zero Float32.neg_one
             Float32.one (Z.to_nat count) engine_default [] i Hi).
  - unfold buffer_size, buffer_byte.
    rewrite CreateRandomPointBuffer_store, Hsize.
    cbn [ds_size ds_byte store_of_bytes]. split; [reflexivity|].
    intros k [Hk1 Hk2].
    apply Z.leb_le in Hk1. apply Z.ltb_lt in Hk2. rewrite Hk1, Hk2.
    reflexivity.
Qed.

Lemma createBuffer_size_witness :
  Z.of_nat (length (CreateRandomPointBuffer_buffer (R := MinStd_library) 3))
  = 6
  /\ buffer_size
       (fst (CreateRandomPointBuffer (R := MinStd_library) 3 initial_world))
       (snd (CreateRandomPointBuffer (R := MinStd_library) 3 initial_world))
     = Some 24.
Proof.
  destruct (createBuffer_size (R := MinStd_library) 3 initial_world
              ltac:(unfold is_u32; lia)) as (H1 & _ & H2 & _).
  split; [exact H1 | exact H2].
Defined.

(** C6, amended.  The initial fill draws from a default-constructed engine,
    whose state is the same at every construction: two calls of
    [CreateRandomPointBuffer] with the same [count], in any two worlds,
    create stores of the same size holding the same bytes. *)
Theorem initial_fill_reproducible {R : RandomLibrary} (count : Z)
  (w1 w2 : World) :
  buffer_size (fst (CreateRandomPointBuffer count w1))
    (snd (CreateRandomPointBuffer count w1))
  = buffer_size (fst (CreateRandomPointBuffer count w2))
      (snd (CreateRandomPointBuffer count w2))
  /\ is_Some (buffer_size (fst (CreateRandomPointBuffer count w1))
                (snd (CreateRandomPointBuffer count w1)))
  /\ forall k,
       buffer_byte (fst (CreateRandomPointBuffer count w1)) k
         (snd (CreateRandomPointBuffer count w1))
       = buffer_byte (fst (CreateRandomPointBuffer count w2)) k
           (snd (CreateRandomPointBuffer count w2)).
Proof.
  unfold buffer_size, buffer_byte.
  rewrite !CreateRandomPointBuffer_store.
  split; [reflexivity|]. split; [eexists; reflexivity | reflexivity].
Qed.

(** C6 as stated fails: no library, count or pair of worlds makes two
    initial fills differ in any byte. *)
Lemma initial_fill_reproducible_counterexample :
  ~ (exists (R : RandomLibrary) (count : Z) (w1 w2 : World) (k : Z),
        buffer_byte (fst (CreateRandomPointBuffer count w1)) k
          (snd (CreateRandomPointBuffer count w1))
        <> buffer_byte (fst (CreateRandomPointBuffer count w2)) k
             (snd (CreateRandomPointBuffer count w2))).
Proof.
  intros (R & count & w1 & w2 & k & H). apply H.
  unfold buffer_byte. rewrite !CreateRandomPointBuffer_store. reflexivity.
Qed.

(** ** The window rewrite *)

(** C2, amended.  For every [offset] and [batchSize] below [2^29], so that
    the [unsigned int] products [offset * 8] and [batchSize * 8] do not
    wrap, with [offset + batchSize <= count] on a buffer of [count] points:
    [AlterBuffer] replaces the bytes [offset * 8, (offset + batchSize) * 8)
    of the buffer by the [batchSize * 8] bytes of the points it generated,
    keeps every other byte of the buffer, keeps its size, touches no other
    buffer, and advances the cursor by [batchSize]. *)
Theorem AlterBuffer_window {R : RandomLibrary}
  (vbo offset batchSize seed count : Z) (w : World) :
  0 <= offset ->
  0 <= batchSize ->
  offset + batchSize <= count ->
  offset * 8 < 2 ^ 32 ->
  batchSize * 8 < 2 ^ 32 ->
  buffer_size vbo w = Some (count * 8) ->
  buffer_size vbo (snd (AlterBuffer vbo offset batchSize seed w))
  = Some (count * 8)
  /\ Z.of_nat (length (vector_bytes (AlterBuffer_buffer batchSize seed)))
     = batchSize * 8
  /\ (forall k,
        offset * 8 <= k < (offset + batchSize) * 8 ->
        buffer_byte vbo k (snd (AlterBuffer vbo offset batchSize seed w))
        = Some (nth (Z.to_nat (k - offset * 8))
                  (vector_bytes (AlterBuffer_buffer batchSize seed)) x00))
  /\ (forall k,
        ~ (offset * 8 <= k < (offset + batchSize) * 8) ->
        buffer_byte vbo k (snd (AlterBuffer vbo offset batchSize seed w))
        = buffer_byte vbo k w)
  /\ (forall p,
        buffer_name vbo <> Some p ->
        gl_buffers (snd (AlterBuffer vbo offset batchSize seed w)) !! p
        = gl_buffers w !! p)
  /\ fst (AlterBuffer vbo offset batchSize seed w) = offset + batchSize.
Proof.
  intros Ho Hb Hfit Hwo Hwb Hsize.
  unfold buffer_size, buffer_byte in *.
  destruct (buffer_store vbo w) as [ds|] eqn:Hds; [|discriminate].
  injection Hsize as Hsize.
  rewrite (AlterBuffer_store vbo offset batchSize seed w ds Hds)
    by (rewrite !u32_small by lia; lia).
  rewrite !u32_small by lia.
  cbn [ds_size ds_byte store_write].
  split; [rewrite Hsize; reflexivity|].
  split; [rewrite length_vector_bytes, Nat2Z.inj_mul,
            AlterBuffer_buffer_length by lia; lia|].
  split; [|split; [|split]].
  - intros k Hk.
    destruct (Z.leb_spec (offset * 8) k); [|lia].
    destruct (Z.ltb_spec k (offset * 8 + batchSize * 8)); [|lia].
    reflexivity.
  - intros k Hk.
    destruct (Z.leb_spec (offset * 8) k);
      destruct (Z.ltb_spec k (offset * 8 + batchSize * 8));
      cbn [andb]; try reflexivity; lia.
  - intros p Hp. apply AlterBuffer_other_buffers. exact Hp.
  - rewrite AlterBuffer_offset. apply u32_small. lia.
Qed.

Lemma AlterBuffer_window_witness :
  buffer_size 1
    (snd (AlterBuffer (R := MinStd_library) 1 4 4 1 (world_with_buffer 80)))
  = Some 80
  /\ buffer_byte 1 31
       (snd (AlterBuffer (R := MinStd_library) 1 4 4 1 (world_with_buffer 80)))
     = Some xff
  /\ fst (AlterBuffer (R := MinStd_library) 1 4 4 1 (world_with_buffer 80))
     = 8.
Proof.
  destruct (AlterBuffer_window (R := MinStd_library) 1 4 4 1 10
              (world_with_buffer 80)
              ltac:(lia) ltac:(lia) ltac:(lia) ltac:(lia) ltac:(lia) eq_refl)
    as (H1 & _ & _ & H4 & _ & H6).
  split; [exact H1|]. split; [|exact H6].
  rewrite H4 by lia. reflexivity.
Defined.

(** C2 as stated fails where [offset * 8] wraps: on a buffer of
    [2^29 + 1] points, all bytes [xff], the call at [offset = 2^29] with
    [batchSize = 1] has [offset + batchSize <= count], yet it writes the
    generated bytes at the start of the buffer (byte 1, outside the window,
    turns from [xff] into the generated [x4c]) and leaves the window
    [offset * 8, (offset + batchSize) * 8) as it was. *)
Lemma AlterBuffer_window_counterexample :
  536870912 + 1 <= 536870913
  /\ buffer_size 1 (world_with_buffer 4294967304) = Some (536870913 * 8)
  /\ ~ (536870912 * 8 <= 1 < (536870912 + 1) * 8)
  /\ buffer_byte 1 1 (world_with_buffer 4294967304) = Some xff
  /\ buffer_byte 1 1
       (snd (AlterBuffer (R := MinStd_library) 1 536870912 1 0
               (world_with_buffer 4294967304)))
     = Some x4c
  /\ nth 1 (vector_bytes (AlterBuffer_buffer (R := MinStd_library) 1 0)) x00
     = x4c
  /\ buffer_byte 1 (536870912 * 8 + 1)
       (snd (AlterBuffer (R := MinStd_library) 1 536870912 1 0
               (world_with_buffer 4294967304)))
     = Some xff.
Proof.
  split; [lia|]. split; [reflexivity|]. split; [lia|].
  repeat split; vm_compute; reflexivity.
Qed.

(** C5.  The bytes a call of [AlterBuffer] writes depend on [batchSize] and
    [seed] alone: two calls with the same [seed] and [batchSize], on any
    two buffers, at any two offsets and in any two worlds, put the same
    bytes in the windows they write, byte for byte the generated vector.
    (A call whose window does not fit its buffer writes nothing.) *)
Theorem AlterBuffer_deterministic {R : RandomLibrary} (batchSize seed : Z)
  (vbo1 offset1 size1 : Z) (w1 : World)
  (vbo2 offset2 size2 : Z) (w2 : World) (k : Z) :
  buffer_size vbo1 w1 = Some size1 ->
  buffer_size vbo2 w2 = Some size2 ->
  u32 (offset1 * 8) + u32 (batchSize * 8) <= size1 ->
  u32 (offset2 * 8) + u32 (batchSize * 8) <= size2 ->
  0 <= k < u32 (batchSize * 8) ->
  buffer_byte vbo1 (u32 (offset1 * 8) + k)
    (snd (AlterBuffer vbo1 offset1 batchSize seed w1))
  = Some (nth (Z.to_nat k)
            (vector_bytes (AlterBuffer_buffer batchSize seed)) x00)
  /\ buffer_byte vbo2 (u32 (offset2 * 8) + k)
       (snd (AlterBuffer vbo2 offset2 batchSize seed w2))
     = buffer_byte vbo1 (u32 (offset1 * 8) + k)
         (snd (AlterBuffer vbo1 offset1 batchSize seed w1)).
Proof.
  intros H1 H2 Hf1 Hf2 Hk.
  unfold buffer_size, buffer_byte in *.
  destruct (buffer_store vbo1 w1) as [ds1|] eqn:Hds1; [|discriminate].
  destruct (buffer_store vbo2 w2) as [ds2|] eqn:Hds2; [|discriminate].
  injection H1 as H1. injection H2 as H2.
  rewrite (AlterBuffer_store vbo1 offset1 batchSize seed w1 ds1 Hds1) by lia.
  rewrite (AlterBuffer_store vbo2 offset2 batchSize seed w2 ds2 Hds2) by lia.
  cbn [ds_byte store_write].
  assert (Hin : forall o, (o <=? o + k) && (o + k <? o + u32 (batchSize * 8))
                          = true).
  { intros o. apply andb_true_intro.
    split; [apply Z.leb_le | apply Z.ltb_lt]; lia. }
  rewrite !Hin.
  replace (u32 (offset1 * 8) + k - u32 (offset1 * 8)) with k by lia.
  replace (u32 (offset2 * 8) + k - u32 (offset2 * 8)) with k by lia.
  split; reflexivity.
Qed.

Lemma AlterBuffer_deterministic_witness :
  buffer_byte 1 9
    (snd (AlterBuffer (R := MinStd_library) 1 1 1 0 (world_with_buffer 80)))
  = Some x4c
  /\ buffer_byte 1 1
       (snd (AlterBuffer (R := MinStd_library) 1 0 1 0
               (world_with_buffer 16)))
     = buffer_byte 1 9
         (snd (AlterBuffer (R := MinStd_library) 1 1 1 0
                 (world_with_buffer 80))).
Proof.
  exact (AlterBuffer_deterministic (R := MinStd_library) 1 0
           1 1 80 (world_with_buffer 80) 1 0 16 (world_with_buffer 16) 1
           eq_refl eq_refl ltac:(vm_compute; discriminate)
           ltac:(vm_compute; discriminate)
           ltac:(vm_compute; split; [discriminate | reflexivity])).
Defined.

(** ** Coordinate ranges *)

Section Ranges.

Context {R : RandomLibrary}.
Variables xlo xhi ylo yhi : Float32.t.
Hypothesis x_interval : Float32.ltb xlo xhi = true.
Hypothesis y_interval : Float32.ltb ylo yhi = true.

(** Even slots of a filled vector lie in the x interval, odd slots in
    the y interval. *)
Lemma fill_points_within (n : nat) (g : engine) (i : nat) (c : Float32.t) :
  (fst (fill_points n xlo xhi ylo yhi g []) !! (2 * i)%nat = Some c ->
   Float32.within xlo xhi c = true)
  /\ (fst (fill_points n xlo xhi ylo yhi g []) !! (2 * i + 1)%nat = Some c ->
      Float32.within ylo yhi c = true).
Proof.
  assert (Hi : forall j,
             is_Some (fst (fill_points n xlo xhi ylo yhi g []) !! j) ->
             (j < 2 * n)%nat).
  { intros j Hj. apply lookup_lt_is_Some in Hj.
    rewrite fill_points_length in Hj. cbn [length] in Hj. lia. }
  split; intros Hc.
  - assert (i < n)%nat as Hlt by (specialize (Hi _ (mk_is_Some _ _ Hc)); lia).
    destruct (fill_points_pair xlo xhi ylo yhi n g [] i Hlt) as (gx & Hx & _).
    cbn [length Nat.add] in Hx. rewrite Hx in Hc. injection Hc as <-.
    apply uniform_real_range. exact x_interval.
  - assert (i < n)%nat as Hlt by (specialize (Hi _ (mk_is_Some _ _ Hc)); lia).
    destruct (fill_points_pair xlo xhi ylo yhi n g [] i Hlt) as (gx & _ & Hy).
    cbn [length Nat.add] in Hy. rewrite Hy in Hc. injection Hc as <-.
    apply uniform_real_range. exact y_interval.
Qed.

End Ranges.

(** C4.  In the vector [AlterBuffer] generates every x (even slot) lies in
    [0, 1) and every y (odd slot) in [-1, 1); in the vector of the initial
    fill every x lies in [-1, 0) and every y in [-1, 1).  The two x ranges
    share no value. *)
Theorem coordinate_ranges {R : RandomLibrary} (batchSize seed count : Z)
  (i : nat) (c : Float32.t) :
  (AlterBuffer_buffer batchSize seed !! (2 * i)%nat = Some c ->
   Float32.within Float32.zero Float32.one c = true)
  /\ (AlterBuffer_buffer batchSize seed !! (2 * i + 1)%nat = Some c ->
      Float32.within Float32.neg_one Float32.one c = true)
  /\ (CreateRandomPointBuffer_buffer count !! (2 * i)%nat = Some c ->
      Float32.within Float32.neg_one Float32.zero c = true)
  /\ (CreateRandomPointBuffer_buffer count !! (2 * i + 1)%nat = Some c ->
      Float32.within Float32.neg_one Float32.one c = true)
  /\ (Float32.within Float32.neg_one Float32.zero c = true ->
      Float32.within Float32.zero Float32.one c = false).
Proof.
  assert (Hd : Float32.within Float32.neg_one Float32.zero c = true ->
               Float32.within Float32.zero Float32.one c = false).
  { unfold Float32.within. intros H.
    apply andb_true_iff in H. destruct H as [_ H].
    destruct c as [s | s | | s m e]; try destruct s;
      first [discriminate H | reflexivity]. }
  unfold AlterBuffer_buffer, CreateRandomPointBuffer_buffer.
  destruct (fill_points_within Float32.zero Float32.one Float32.neg_one
              Float32.one eq_refl eq_refl (Z.to_nat batchSize)
              (engine_seeded seed) i c) as [Ax Ay].
  destruct (fill_points_within Float32.neg_one Float32.zero Float32.neg_one
              Float32.one eq_refl eq_refl (Z.to_nat count)
              engine_default i c) as [Cx Cy].
  repeat split; assumption.
Qed.

Lemma coordinate_ranges_witness :
  AlterBuffer_buffer (R := MinStd_library) 2 7 !! 2%nat
  = Some (S754_finite false 9705192 (-25))
  /\ Float32.within Float32.zero Float32.one (S754_finite false 9705192 (-25))
     = true
  /\ CreateRandomPointBuffer_buffer (R := MinStd_library) 2 !! 3%nat
     = Some (S754_finite true 11099768 (-27))
  /\ Float32.within Float32.neg_one Float32.one
       (S754_finite true 11099768 (-27))
     = true.
Proof.
  split; [reflexivity|]. split.
  - apply (proj1 (coordinate_ranges (R := MinStd_library) 2 7 2 1
                    (S754_finite false 9705192 (-25)))).
    reflexivity.
  - split; [reflexivity|].
    apply (proj1 (proj2 (proj2 (proj2
             (coordinate_ranges (R := MinStd_library) 2 7 2 1
                (S754_finite true 11099768 (-27))))))).
    reflexivity.
Defined.


(** * Further properties of the loop and the buffer functions *)

(** ** Bookkeeping of every pass *)


Lemma reachable_start_inv {R : RandomLibrary} (cfg : Config) (env : Env)
  (program vbo vao : Z) (l0 : Locals) (w0 : World) (i : nat) (l : Locals)
  (w : World) :
  reachable cfg env program vbo vao l0 w0 i l w ->
  i = O -> l = l0 /\ w = w0.
Proof. intros Hr. destruct Hr; [split; reflexivity | discriminate]. Qed.





(** ** Frames, rewrites and seeds in lockstep *)

Lemma windows_S (bs : Z) (m : nat) :
  windows bs (S m) = windows bs m ++ [(Z.of_nat m * bs, bs, Z.of_nat m)].
Proof. unfold windows. rewrite seq_S, map_app. reflexivity. Qed.

Lemma length_windows (bs : Z) (m : nat) : length (windows bs m) = m.
Proof. unfold windows. rewrite length_map, length_seq. reflexivity. Qed.

Section Lockstep.

Context {R : RandomLibrary}.
Variables (cfg : Config) (env : Env) (program vbo vao : Z) (w0 : World).

Hypothesis batching : batching_test cfg = true.
Hypothesis batch_positive : 0 < batchSize cfg.
Hypothesis count_u32 : is_u32 (pointCount cfg).
Hypothesis fit : sums_fit cfg.

(** After [i] passes [m] windows were rewritten, with [m = i] while the
    close flag is down and [m <= i <= m + 1] always. *)
Lemma reachable_lockstep (i : nat) (l : Locals) (w : World) :
  reachable cfg env program vbo vao initial_locals w0 i l w ->
  exists m : nat,
    (m <= i <= m + 1)%nat
    /\ (window_should_close w = false -> m = i)
    /\ offset l = Z.of_nat m * batchSize cfg
    /\ Z.of_nat m * batchSize cfg <= pointCount cfg
    /\ frame l = Z.of_nat i
    /\ mutation_calls (trace w)
       = mutation_calls (trace w0) ++ windows (batchSize cfg) m.
Proof.
  intros Hr. induction Hr as [|i l w Hr IH Hc].
  - exists O. cbn. rewrite app_nil_r. unfold is_u32 in count_u32.
    repeat split; try reflexivity; lia.
  - destruct IH as (m & Hm & Hflag & Ho & Hle & Hf & Ht).
    specialize (Hflag Hc). subst m.
    pose proof (sums_fit_at cfg (Z.of_nat i) ltac:(lia) count_u32 fit
                  ltac:(lia) Hle) as Hs.
    destruct (mutates_no_wrap cfg l batching ltac:(lia) ltac:(lia)
                ltac:(lia)) as (Em & Ee & Eu).
    rewrite loop_body_offset, loop_body_frame, loop_body_trace,
      loop_body_should_close, mutation_calls_app, Em, Ee, Eu, Hf, Ht, Ho.
    rewrite u32_small by nia.
    destruct (Z.leb_spec (Z.of_nat i * batchSize cfg + batchSize cfg)
                (pointCount cfg)) as [Hfits|Hfull].
    + exists (S i). rewrite windows_S, <- app_assoc.
      repeat split; try lia; reflexivity.
    + destruct (Z.ltb_spec (pointCount cfg)
                  (Z.of_nat i * batchSize cfg + batchSize cfg)); [|lia].
      exists i. rewrite orb_true_r.
      cbn [closing_frame render_events mutation_calls].
      rewrite app_nil_r.
      repeat split; try lia; try discriminate; reflexivity.
Qed.

End Lockstep.

(** X2.  In benchmark mode with [0 < batchSize] and sums that do not wrap,
    in every state the loop can reach from [offset = 0], whatever the close
    requests: the [AlterBuffer] calls made so far are window 0, 1, ... in
    order, window [j] starting at point [j * batchSize] and seeded with [j];
    the cursor is the number of windows times [batchSize]; and the number of
    passes is that number or one more. *)
Theorem windows_in_lockstep {R : RandomLibrary} (cfg : Config) (env : Env)
  (program vbo vao : Z) (w0 : World) (i : nat) (l : Locals) (w : World) :
  batching_test cfg = true ->
  0 < batchSize cfg ->
  is_u32 (pointCount cfg) ->
  sums_fit cfg ->
  mutation_calls (trace w0) = [] ->
  reachable cfg env program vbo vao initial_locals w0 i l w ->
  exists m : nat,
    mutation_calls (trace w) = windows (batchSize cfg) m
    /\ offset l = Z.of_nat m * batchSize cfg
    /\ (m <= i <= m + 1)%nat
    /\ (window_should_close w = false -> m = i).
Proof.
  intros Hb Hs Hp Hfit Ht Hr.
  destruct (reachable_lockstep cfg env program vbo vao w0 Hb Hs Hp Hfit
              i l w Hr) as (m & Hm & Hflag & Ho & _ & _ & Hmc).
  exists m. rewrite Hmc, Ht. repeat split; try assumption; lia.
Qed.

Lemma windows_in_lockstep_witness :
  exists m : nat,
    mutation_calls
      (trace (snd (loop_body (R := MinStd_library) small_config quiet_env
                     1 1 1 0 initial_locals (world_with_buffer 80))))
    = windows 4 m
    /\ offset (fst (loop_body (R := MinStd_library) small_config quiet_env
                      1 1 1 0 initial_locals (world_with_buffer 80)))
       = Z.of_nat m * 4.
Proof.
  assert (Hr : reachable (R := MinStd_library) small_config quiet_env 1 1 1
                 initial_locals (world_with_buffer 80) 1
                 (fst (loop_body (R := MinStd_library) small_config quiet_env
                         1 1 1 0 initial_locals (world_with_buffer 80)))
                 (snd (loop_body (R := MinStd_library) small_config quiet_env
                         1 1 1 0 initial_locals (world_with_buffer 80))))
    by (apply reach_pass; [apply reach_start | reflexivity]).
  destruct (windows_in_lockstep (R := MinStd_library) small_config quiet_env
              1 1 1 (world_with_buffer 80) 1 _ _
              eq_refl eq_refl
              ltac:(vm_compute; split; [discriminate | reflexivity])
              eq_refl eq_refl Hr)
    as (m & H1 & H2 & _).
  exists m. split; assumption.
Defined.

(** X11.  In benchmark mode with [0 < batchSize] and sums that do not
    wrap, whenever the loop is left, whatever the close requests: at least
    one frame ran and at most [pointCount / batchSize + 1]; the frame count
    is the number of [AlterBuffer] calls or one more; and the cursor is that
    number of calls times [batchSize]. *)
Theorem exit_frame_bounds {R : RandomLibrary} (cfg : Config) (env : Env)
  (program vbo vao : Z) (w0 : World) (fuel : nat) (l : Locals) (w : World) :
  batching_test cfg = true ->
  0 < batchSize cfg ->
  is_u32 (pointCount cfg) ->
  sums_fit cfg ->
  window_should_close w0 = false ->
  mutation_calls (trace w0) = [] ->
  main_loop fuel cfg env program vbo vao 0 initial_locals w0 = Some (l, w) ->
  1 <= frame l <= pointCount cfg / batchSize cfg + 1
  /\ Z.of_nat (length (mutation_calls (trace w))) <= frame l
     <= Z.of_nat (length (mutation_calls (trace w))) + 1
  /\ offset l
     = Z.of_nat (length (mutation_calls (trace w))) * batchSize cfg.
Proof.
  intros Hb Hs Hp Hfit Hc Ht Hm.
  destruct (main_loop_reachable cfg env program vbo vao initial_locals w0
              fuel 0 initial_locals w0 l w (reach_start _ _ _ _ _ _ _) Hm)
    as (Hclosed & j & Hr).
  destruct (reachable_lockstep cfg env program vbo vao w0 Hb Hs Hp Hfit
              j l w Hr) as (m & Hmj & _ & Ho & Hle & Hf & Hmc).
  assert (j <> O) as Hj.
  { intros ->. destruct (reachable_start_inv _ _ _ _ _ _ _ _ _ _ Hr eq_refl)
      as [_ ->]. congruence. }
  assert (Z.of_nat m <= pointCount cfg / batchSize cfg)
    by (apply Z.div_le_lower_bound; lia).
  rewrite Hmc, Ht. cbn [app]. rewrite length_windows, Hf, Ho.
  repeat split; lia.
Qed.

Lemma exit_frame_bounds_witness :
  exists l w,
    main_loop (R := MinStd_library) 3 small_config closing_env 1 1 1 0
      initial_locals (world_with_buffer 80) = Some (l, w)
    /\ 1 <= frame l <= 3.
Proof.
  destruct (main_loop (R := MinStd_library) 3 small_config closing_env
              1 1 1 0 initial_locals (world_with_buffer 80))
    as [[l w]|] eqn:E; [|vm_compute in E; discriminate E].
  exists l, w. split; [reflexivity|].
  exact (proj1 (exit_frame_bounds (R := MinStd_library) small_config
                  closing_env 1 1 1 (world_with_buffer 80) 3 l w
                  eq_refl eq_refl
                  ltac:(vm_compute; split; [discriminate | reflexivity])
                  eq_refl eq_refl eq_refl E)).
Defined.

(** ** The buffer during a run *)

Lemma loop_body_buffers {R : RandomLibrary} (cfg : Config) (env : Env)
  (program vbo vao : Z) (i : nat) (l : Locals) (w : World) :
  gl_buffers (snd (loop_body cfg env program vbo vao i l w))
  = if mutates cfg l
    then gl_buffers (snd (AlterBuffer vbo (offset l) (batchSize cfg)
                            (frame l) w))
    else gl_buffers w.
Proof.
  unfold loop_body, mutates.
  destruct (batching_test cfg);
    [destruct (u32 (offset l + batchSize cfg) >? pointCount cfg)|];
    cbn [negb andb fst snd]; try reflexivity.
  unfold AlterBuffer, glBindBuffer, glBufferSubData.
  cbn [fst snd gl_array_buffer gl_buffers with_array_buffer emit
       glfwPollEvents with_should_close].
  destruct (buffer_name vbo) as [q|]; [|reflexivity].
  destruct (gl_buffers w !! q) as [ds|]; [|reflexivity].
  destruct (_ && _); reflexivity.
Qed.

Lemma sums_fit_of_bytes (cfg : Config) :
  0 < batchSize cfg < 2 ^ 32 ->
  0 <= pointCount cfg ->
  pointCount cfg * 8 < 2 ^ 32 ->
  sums_fit cfg.
Proof.
  intros Hs Hp Hb.
  destruct (Z.le_gt_cases (batchSize cfg) (pointCount cfg)).
  - apply sums_fit_of_sum; lia.
  - unfold sums_fit. rewrite Z.div_small by lia. lia.
Qed.

Lemma window_index (bs i k : Z) :
  0 < bs ->
  i * bs * 8 <= k < i * bs * 8 + bs * 8 ->
  k / (bs * 8) = i /\ k mod (bs * 8) = k - i * bs * 8.
Proof.
  intros Hs Hk. split.
  - symmetry. apply Z.div_unique with (r := k - i * bs * 8); lia.
  - symmetry. apply Z.mod_unique with (q := i); lia.
Qed.

Section StoreInvariant.

Context {R : RandomLibrary}.
Variables (cfg : Config) (env : Env) (program vbo vao : Z) (w0 : World).
Variable ds0 : DataStore.

Hypothesis batching : batching_test cfg = true.
Hypothesis batch_range : 0 < batchSize cfg < 2 ^ 32.
Hypothesis count_positive : 0 <= pointCount cfg.
Hypothesis bytes_fit : pointCount cfg * 8 < 2 ^ 32.
Hypothesis store0 : buffer_store vbo w0 = Some ds0.
Hypothesis size0 : ds_size ds0 = pointCount cfg * 8.

(** The buffer holds the generated bytes below the cursor and its initial
    bytes from the cursor on. *)
Lemma reachable_store (i : nat) (l : Locals) (w : World) :
  reachable cfg env program vbo vao initial_locals w0 i l w ->
  exists ds,
    buffer_store vbo w = Some ds
    /\ ds_size ds = pointCount cfg * 8
    /\ forall k,
         ds_byte ds k
         = rewritten_byte (batchSize cfg) (offset l / batchSize cfg) ds0 k.
Proof.
  assert (Hu : is_u32 (pointCount cfg)) by (unfold is_u32; lia).
  pose proof (sums_fit_of_bytes cfg batch_range count_positive bytes_fit)
    as Hfit.
  intros Hr. induction Hr as [|i l w Hr IH Hc].
  - exists ds0. split; [exact store0|]. split; [exact size0|].
    intros k. unfold rewritten_byte. cbn [offset initial_locals].
    rewrite Z.div_0_l by lia.
    destruct (Z.leb_spec 0 k); destruct (Z.ltb_spec k (0 * batchSize cfg * 8));
      cbn [andb]; try reflexivity; lia.
  - destruct IH as (ds & Hds & Hsize & Hbytes).
    destruct (reachable_lockstep cfg env program vbo vao w0 batching
                ltac:(lia) Hu Hfit i l w Hr)
      as (m & _ & Hflag & Ho & Hle & Hf & _).
    specialize (Hflag Hc). subst m.
    pose proof (sums_fit_at cfg (Z.of_nat i) ltac:(lia) Hu Hfit
                  ltac:(lia) Hle) as Hs.
    destruct (mutates_no_wrap cfg l batching ltac:(lia) ltac:(lia)
                ltac:(lia)) as (Em & _ & Eu).
    unfold buffer_store in *.
    rewrite loop_body_buffers, loop_body_offset, Em, Eu.
    destruct (Z.leb_spec (offset l + batchSize cfg) (pointCount cfg))
      as [Hfits|Hfull].
    + pose proof (AlterBuffer_store vbo (offset l) (batchSize cfg) (frame l)
                    w ds) as Hw.
      unfold buffer_store in Hw.
      rewrite !u32_small in Hw by lia.
      rewrite Hw by (assumption || lia).
      eexists. split; [reflexivity|]. split; [exact Hsize|].
      intros k. cbn [ds_byte store_write]. rewrite Hbytes, Hf, Ho.
      rewrite Z.div_mul by lia.
      replace ((Z.of_nat i * batchSize cfg + batchSize cfg) / batchSize cfg)
        with (Z.of_nat i + 1)
        by (apply Z.div_unique with (r := 0); lia).
      unfold rewritten_byte.
      destruct (Z.leb_spec (Z.of_nat i * batchSize cfg * 8) k) as [H1|H1];
        destruct (Z.ltb_spec k (Z.of_nat i * batchSize cfg * 8
                                + batchSize cfg * 8)) as [H2|H2];
        cbn [andb].
      * destruct (window_index (batchSize cfg) (Z.of_nat i) k ltac:(lia)
                    ltac:(lia)) as [Ed Em'].
        rewrite Ed, Em'.
        destruct (Z.leb_spec 0 k); [|lia].
        destruct (Z.ltb_spec k ((Z.of_nat i + 1) * batchSize cfg * 8));
          [|lia].
        reflexivity.
      * destruct (Z.leb_spec 0 k);
          destruct (Z.ltb_spec k (Z.of_nat i * batchSize cfg * 8));
          destruct (Z.ltb_spec k ((Z.of_nat i + 1) * batchSize cfg * 8));
          cbn [andb]; try reflexivity; lia.
      * destruct (Z.leb_spec 0 k);
          destruct (Z.ltb_spec k (Z.of_nat i * batchSize cfg * 8));
          destruct (Z.ltb_spec k ((Z.of_nat i + 1) * batchSize cfg * 8));
          cbn [andb]; try reflexivity; lia.
      * lia.
    + exists ds. split; [exact Hds|]. split; [exact Hsize|]. exact Hbytes.
Qed.

End StoreInvariant.

Lemma rewritten_byte_below {R : RandomLibrary} (bs m : Z) (ds0 : DataStore)
  (k : Z) :
  0 <= k < m * bs * 8 ->
  rewritten_byte bs m ds0 k
  = nth (Z.to_nat (k mod (bs * 8)))
      (vector_bytes (AlterBuffer_buffer bs (k / (bs * 8)))) x00.
Proof.
  intros [H1 H2]. unfold rewritten_byte.
  apply Z.leb_le in H1. apply Z.ltb_lt in H2. rewrite H1, H2. reflexivity.
Qed.

Lemma rewritten_byte_above {R : RandomLibrary} (bs m : Z) (ds0 : DataStore)
  (k : Z) :
  ~ (0 <= k < m * bs * 8) ->
  rewritten_byte bs m ds0 k = ds_byte ds0 k.
Proof.
  intros H. unfold rewritten_byte.
  destruct (Z.leb_spec 0 k); destruct (Z.ltb_spec k (m * bs * 8));
    cbn [andb]; try reflexivity; lia.
Qed.

(** X3.  In benchmark mode on a buffer of [pointCount * 8 < 2^32] bytes,
    in every state the loop can reach from [offset = 0], whatever the close
    requests: the buffer keeps its size; every byte below the cursor belongs
    to the window [k / (batchSize * 8)] and is the byte of the vector
    generated with that window's index as seed; every byte from the cursor
    on is as it was before the loop.  Each window is written once and no
    later pass touches it. *)
Theorem buffer_follows_cursor {R : RandomLibrary} (cfg : Config) (env : Env)
  (program vbo vao : Z) (w0 : World) (i : nat) (l : Locals) (w : World) :
  batching_test cfg = true ->
  0 < batchSize cfg < 2 ^ 32 ->
  0 <= pointCount cfg ->
  pointCount cfg * 8 < 2 ^ 32 ->
  buffer_size vbo w0 = Some (pointCount cfg * 8) ->
  reachable cfg env program vbo vao initial_locals w0 i l w ->
  buffer_size vbo w = Some (pointCount cfg * 8)
  /\ (forall k,
        0 <= k < offset l * 8 ->
        buffer_byte vbo k w
        = Some (nth (Z.to_nat (k mod (batchSize cfg * 8)))
                  (vector_bytes
                     (AlterBuffer_buffer (batchSize cfg)
                        (k / (batchSize cfg * 8)))) x00))
  /\ (forall k,
        ~ (0 <= k < offset l * 8) ->
        buffer_byte vbo k w = buffer_byte vbo k w0).
Proof.
  intros Hb Hs Hp Hbytes Hsize Hr.
  unfold buffer_size, buffer_byte in *.
  destruct (buffer_store vbo w0) as [ds0|] eqn:Hds0; [|discriminate].
  injection Hsize as Hsize.
  destruct (reachable_store cfg env program vbo vao w0 ds0 Hb Hs Hp Hbytes
              Hds0 Hsize i l w Hr) as (ds & Hds & Hsz & Hk).
  destruct (reachable_lockstep cfg env program vbo vao w0 Hb ltac:(lia)
              ltac:(unfold is_u32; lia)
              (sums_fit_of_bytes cfg Hs Hp Hbytes) i l w Hr)
    as (m & _ & _ & Ho & _).
  assert (Hm : offset l / batchSize cfg * batchSize cfg * 8 = offset l * 8)
    by (rewrite Ho, Z.div_mul by lia; reflexivity).
  rewrite Hds, Hsz. split; [reflexivity|]. split; intros k Hrange.
  - rewrite Hk, rewritten_byte_below by lia. reflexivity.
  - rewrite Hk, rewritten_byte_above by lia. reflexivity.
Qed.

Lemma buffer_follows_cursor_witness :
  buffer_byte 1 32
    (snd (loop_body (R := MinStd_library) small_config quiet_env 1 1 1 0
            initial_locals (world_with_buffer 80)))
  = buffer_byte 1 32 (world_with_buffer 80).
Proof.
  assert (Hr : reachable (R := MinStd_library) small_config quiet_env 1 1 1
                 initial_locals (world_with_buffer 80) 1
                 (fst (loop_body (R := MinStd_library) small_config quiet_env
                         1 1 1 0 initial_locals (world_with_buffer 80)))
                 (snd (loop_body (R := MinStd_library) small_config quiet_env
                         1 1 1 0 initial_locals (world_with_buffer 80))))
    by (apply reach_pass; [apply reach_start | reflexivity]).
  destruct (buffer_follows_cursor (R := MinStd_library) small_config
              quiet_env 1 1 1 (world_with_buffer 80) 1 _ _
              eq_refl ltac:(vm_compute; split; reflexivity)
              ltac:(vm_compute; discriminate) eq_refl eq_refl Hr)
    as (_ & _ & H).
  apply H. vm_compute. intros [_ H']. discriminate H'.
Defined.

(** X4.  In benchmark mode on a buffer of [pointCount * 8 < 2^32] bytes,
    with [0 < batchSize] and no close request, the loop ends with the cursor
    at [(pointCount / batchSize) * batchSize]: every point below it has been
    rewritten, window by window, each window seeded with its own index, and
    the [pointCount mod batchSize] points from there to the end of the
    buffer are never rewritten. *)
Theorem buffer_after_run {R : RandomLibrary} (cfg : Config) (env : Env)
  (program vbo vao : Z) (w0 : World) (fuel : nat) :
  batching_test cfg = true ->
  0 < batchSize cfg < 2 ^ 32 ->
  0 <= pointCount cfg ->
  pointCount cfg * 8 < 2 ^ 32 ->
  buffer_size vbo w0 = Some (pointCount cfg * 8) ->
  window_should_close w0 = false ->
  (forall i, close_requested env i = false) ->
  (Z.to_nat (pointCount cfg / batchSize cfg) + 2 <= fuel)%nat ->
  exists l w,
    main_loop fuel cfg env program vbo vao 0 initial_locals w0 = Some (l, w)
    /\ offset l = pointCount cfg / batchSize cfg * batchSize cfg
    /\ (forall k,
          0 <= k < pointCount cfg / batchSize cfg * batchSize cfg * 8 ->
          buffer_byte vbo k w
          = Some (nth (Z.to_nat (k mod (batchSize cfg * 8)))
                    (vector_bytes
                       (AlterBuffer_buffer (batchSize cfg)
                          (k / (batchSize cfg * 8)))) x00))
    /\ (forall k,
          pointCount cfg / batchSize cfg * batchSize cfg * 8 <= k ->
          buffer_byte vbo k w = buffer_byte vbo k w0).
Proof.
  intros Hb Hs Hp Hbytes Hsize Hc Hquiet Hfuel.
  pose proof (Z.div_pos _ _ Hp (proj1 Hs)) as Hq.
  pose proof (Z.mul_div_le (pointCount cfg) _ (proj1 Hs)) as Hlo.
  pose proof (Z.mul_succ_div_gt (pointCount cfg) _ (proj1 Hs)) as Hhi.
  pose proof (sums_fit_of_bytes cfg Hs Hp Hbytes) as Hfit.
  unfold sums_fit in Hfit.
  set (n := Z.to_nat (pointCount cfg / batchSize cfg)) in *.
  assert (Hn : Z.of_nat n = pointCount cfg / batchSize cfg)
    by (unfold n; lia).
  clearbody n.
  destruct (quiet_run cfg env program vbo vao Hb (proj1 Hs) Hquiet n
              (fuel - (n + 2)) 0 initial_locals w0 Hc)
    as (w & Hm & _ & _); cbn [offset frame initial_locals]; try nia.
  replace (S (S n) + (fuel - (n + 2)))%nat with fuel in Hm by lia.
  cbn [offset frame sum initial_locals] in Hm.
  rewrite !Z.add_0_l, Hn in Hm.
  destruct (main_loop_reachable cfg env program vbo vao initial_locals w0
              fuel 0 initial_locals w0 _ w (reach_start _ _ _ _ _ _ _) Hm)
    as (_ & j & Hr).
  unfold buffer_size, buffer_byte in *.
  destruct (buffer_store vbo w0) as [ds0|] eqn:Hds0; [|discriminate].
  injection Hsize as Hsize.
  destruct (reachable_store cfg env program vbo vao w0 ds0 Hb Hs Hp Hbytes
              Hds0 Hsize j _ w Hr) as (ds & Hds & _ & Hk).
  cbn [offset] in Hk. rewrite Z.div_mul in Hk by lia.
  eexists _, w. split; [exact Hm|]. cbn [offset].
  split; [reflexivity|]. rewrite Hds. split; intros k Hrange.
  - rewrite Hk, rewritten_byte_below by lia. reflexivity.
  - rewrite Hk, rewritten_byte_above by lia. reflexivity.
Qed.

Lemma buffer_after_run_witness :
  exists l w,
    main_loop (R := MinStd_library) 4 small_config quiet_env 1 1 1 0
      initial_locals (world_with_buffer 80) = Some (l, w)
    /\ offset l = 8
    /\ buffer_byte 1 64 w = Some xff
    /\ buffer_byte 1 79 w = Some xff.
Proof.
  destruct (buffer_after_run (R := MinStd_library) small_config quiet_env
              1 1 1 (world_with_buffer 80) 4
              eq_refl ltac:(vm_compute; split; reflexivity)
              ltac:(vm_compute; discriminate) eq_refl eq_refl eq_refl
              (fun _ => eq_refl) ltac:(vm_compute; lia))
    as (l & w & Hm & Ho & _ & Htail).
  exists l, w. split; [exact Hm|]. split; [exact Ho|].
  split; (rewrite Htail; [reflexivity | vm_compute; discriminate]).
Defined.

(** ** Close requests *)

Section CloseRequests.

Context {R : RandomLibrary}.
Variables (cfg : Config) (env : Env) (program vbo vao : Z).

(** With [BATCHING_TEST] off a pass only polls and renders. *)
Lemma plain_pass (i : nat) (l : Locals) (w : World) :
  batching_test cfg = false ->
  mutates cfg l = false
  /\ exhausted cfg l = false
  /\ offset (fst (loop_body cfg env program vbo vao i l w)) = offset l
  /\ gl_buffers (snd (loop_body cfg env program vbo vao i l w))
     = gl_buffers w
  /\ mutation_calls (trace (snd (loop_body cfg env program vbo vao i l w)))
     = mutation_calls (trace w)
  /\ window_should_close (snd (loop_body cfg env program vbo vao i l w))
     = window_should_close w || close_requested env i.
Proof.
  intros Hb.
  assert (Em : mutates cfg l = false) by (unfold mutates; rewrite Hb; easy).
  assert (Ee : exhausted cfg l = false)
    by (unfold exhausted; rewrite Hb; easy).
  rewrite loop_body_offset, loop_body_buffers, loop_body_trace,
    loop_body_should_close, mutation_calls_app, Em, Ee, orb_false_r.
  cbn [render_events mutation_calls]. rewrite app_nil_r.
  repeat split.
Qed.

(** With [BATCHING_TEST] off and the first close request [k] polls ahead,
    the loop makes [k + 1] passes and leaves. *)
Lemma plain_run (k : nat) :
  batching_test cfg = false ->
  forall (extra i : nat) (l : Locals) (w : World),
    window_should_close w = false ->
    (forall j, (j < k)%nat -> close_requested env (i + j) = false) ->
    close_requested env (i + k) = true ->
    exists w',
      main_loop (S (S k) + extra) cfg env program vbo vao i l w
      = Some ({| frame := u32 (frame l + Z.of_nat (S k));
                 offset := offset l;
                 sum := accumulate env (S k) i (sum l) |}, w')
      /\ gl_buffers w' = gl_buffers w
      /\ mutation_calls (trace w') = mutation_calls (trace w).
Proof.
  intros Hb. induction k as [|k IH]; intros extra i l w Hc Hq Hreq.
  - set (lb := loop_body cfg env program vbo vao i l w).
    destruct (plain_pass i l w Hb) as (_ & _ & Ho & Hg & Hm & Hf).
    fold lb in Ho, Hg, Hm, Hf.
    rewrite Nat.add_0_r in Hreq. rewrite Hc, Hreq in Hf.
    exists (snd lb).
    change (S (S 0) + extra)%nat with (S (S extra)).
    rewrite main_loop_S, Hc. fold lb. rewrite main_loop_S, Hf.
    split; [|split; assumption].
    f_equal. f_equal. apply locals_eq; cbn [frame offset sum accumulate].
    + unfold lb. rewrite loop_body_frame. reflexivity.
    + exact Ho.
    + unfold lb. rewrite loop_body_sum. reflexivity.
  - set (lb := loop_body cfg env program vbo vao i l w).
    destruct (plain_pass i l w Hb) as (_ & _ & Ho & Hg & Hm & Hf).
    fold lb in Ho, Hg, Hm, Hf.
    pose proof (Hq O ltac:(lia)) as Hq0. rewrite Nat.add_0_r in Hq0.
    rewrite Hc, Hq0 in Hf.
    destruct (IH extra (S i) (fst lb) (snd lb) Hf) as (w' & Hrun & Hg' & Hm').
    { intros j Hj. replace (S i + j)%nat with (i + S j)%nat by lia.
      apply Hq. lia. }
    { replace (S i + k)%nat with (i + S k)%nat by lia. exact Hreq. }
    exists w'.
    change (S (S (S k)) + extra)%nat with (S (S (S k) + extra)).
    rewrite main_loop_S, Hc. fold lb. rewrite Hrun.
    split; [|split; congruence].
    f_equal. f_equal. apply locals_eq; cbn [frame offset sum accumulate].
    + unfold lb. rewrite loop_body_frame. unfold u32.
      rewrite Zplus_mod_idemp_l. f_equal. lia.
    + exact Ho.
    + unfold lb. rewrite loop_body_sum. reflexivity.
Qed.

Lemma plain_never_exits :
  batching_test cfg = false ->
  (forall i, close_requested env i = false) ->
  forall (fuel i : nat) (l : Locals) (w : World),
    window_should_close w = false ->
    main_loop fuel cfg env program vbo vao i l w = None.
Proof.
  intros Hb Hq. induction fuel as [|fuel IH]; intros i l w Hc; [reflexivity|].
  rewrite main_loop_S, Hc. apply IH.
  destruct (plain_pass i l w Hb) as (_ & _ & _ & _ & _ & Hf).
  rewrite Hf, Hc, Hq. reflexivity.
Qed.

(** In benchmark mode, with room for [k + 1] more windows and the first
    close request [k] polls ahead, the loop rewrites [k + 1] windows, the
    last one in the pass that polls the request, and leaves. *)
Lemma requested_run (k : nat) :
  batching_test cfg = true ->
  0 < batchSize cfg ->
  pointCount cfg < 2 ^ 32 ->
  forall (extra i : nat) (l : Locals) (w : World),
    window_should_close w = false ->
    0 <= offset l ->
    offset l + (Z.of_nat k + 1) * batchSize cfg <= pointCount cfg ->
    0 <= frame l ->
    frame l + Z.of_nat k + 1 < 2 ^ 32 ->
    (forall j, (j < k)%nat -> close_requested env (i + j) = false) ->
    close_requested env (i + k) = true ->
    exists w',
      main_loop (S (S k) + extra) cfg env program vbo vao i l w
      = Some ({| frame := frame l + Z.of_nat k + 1;
                 offset := offset l + (Z.of_nat k + 1) * batchSize cfg;
                 sum := accumulate env (S k) i (sum l) |}, w')
      /\ mutation_calls (trace w')
         = mutation_calls (trace w)
           ++ map (fun j : nat =>
                     (offset l + Z.of_nat j * batchSize cfg, batchSize cfg,
                      frame l + Z.of_nat j))
                (seq 0 (S k)).
Proof.
  intros Hb Hs Hp.
  induction k as [|k IH]; intros extra i l w Hc Ho Hroom Hf Hf2 Hq Hreq.
  - destruct (mutates_no_wrap cfg l Hb ltac:(lia) Ho ltac:(lia))
      as (Em & Ee & Eu).
    assert (Ey : (offset l + batchSize cfg <=? pointCount cfg) = true)
      by (apply Z.leb_le; lia).
    rewrite Ey in Em.
    set (lb := loop_body cfg env program vbo vao i l w).
    assert (Hflag : window_should_close (snd lb) = true).
    { unfold lb. rewrite loop_body_should_close, Hc.
      rewrite Nat.add_0_r in Hreq. rewrite Hreq. reflexivity. }
    exists (snd lb).
    change (S (S 0) + extra)%nat with (S (S extra)).
    rewrite main_loop_S, Hc. fold lb. rewrite main_loop_S, Hflag.
    split.
    + f_equal. f_equal. apply locals_eq; cbn [frame offset sum accumulate];
        unfold lb.
      * rewrite loop_body_frame, u32_small by lia. lia.
      * rewrite loop_body_offset, Em, Eu. lia.
      * rewrite loop_body_sum. reflexivity.
    + unfold lb. rewrite loop_body_trace, Em, mutation_calls_app.
      cbn [mutating_frame render_events mutation_calls seq map Z.of_nat].
      rewrite Z.mul_0_l, !Z.add_0_r. reflexivity.
  - destruct (mutates_no_wrap cfg l Hb ltac:(lia) Ho ltac:(nia))
      as (Em & Ee & Eu).
    assert (Ey : (offset l + batchSize cfg <=? pointCount cfg) = true)
      by (apply Z.leb_le; nia).
    assert (Ex : (pointCount cfg <? offset l + batchSize cfg) = false)
      by (apply Z.ltb_ge; nia).
    rewrite Ey in Em. rewrite Ex in Ee.
    set (lb := loop_body cfg env program vbo vao i l w).
    pose proof (Hq O ltac:(lia)) as Hq0. rewrite Nat.add_0_r in Hq0.
    assert (Hflag : window_should_close (snd lb) = false).
    { unfold lb. rewrite loop_body_should_close, Hc, Hq0, Ee. reflexivity. }
    assert (Hfr : frame (fst lb) = frame l + 1).
    { unfold lb. rewrite loop_body_frame, u32_small by lia. reflexivity. }
    assert (Hof : offset (fst lb) = offset l + batchSize cfg).
    { unfold lb. rewrite loop_body_offset, Em. exact Eu. }
    assert (Hsm : sum (fst lb) = Float32.add (sum l) (elapsed_ms env i)).
    { unfold lb. apply loop_body_sum. }
    assert (Htr : mutation_calls (trace (snd lb))
                  = mutation_calls (trace w)
                    ++ [(offset l, batchSize cfg, frame l)]).
    { unfold lb. rewrite loop_body_trace, Em, mutation_calls_app.
      reflexivity. }
    destruct (IH extra (S i) (fst lb) (snd lb) Hflag)
      as (w' & Hm & Ht); try lia; try nia.
    { intros j Hj. replace (S i + j)%nat with (i + S j)%nat by lia.
      apply Hq. lia. }
    { replace (S i + k)%nat with (i + S k)%nat by lia. exact Hreq. }
    exists w'.
    change (S (S (S k)) + extra)%nat with (S (S (S k) + extra)).
    rewrite main_loop_S, Hc. fold lb. rewrite Hm.
    split.
    + f_equal. f_equal. apply locals_eq; cbn [frame offset sum accumulate].
      * lia.
      * lia.
      * rewrite Hsm. reflexivity.
    + rewrite Ht, Htr, <- app_assoc. f_equal.
      change (seq 0 (S (S k))) with (O :: seq 1 (S k)).
      rewrite <- seq_shift, map_cons, map_map. cbn [app Z.of_nat].
      rewrite Z.mul_0_l, !Z.add_0_r. f_equal.
      apply map_ext. intros j. rewrite Hof, Hfr, Nat2Z.inj_succ.
      replace (offset l + batchSize cfg + Z.of_nat j * batchSize cfg)
        with (offset l + Z.succ (Z.of_nat j) * batchSize cfg) by lia.
      replace (frame l + 1 + Z.of_nat j)
        with (frame l + Z.succ (Z.of_nat j)) by lia.
      reflexivity.
Qed.

End CloseRequests.

(** X5.  With [BATCHING_TEST] off the loop never calls [AlterBuffer], never
    moves the cursor and never touches a buffer; it leaves exactly when a
    close request has been polled: with the first request at poll [k] it
    runs [k + 1] frames, the one that polled the request included, and
    without any request it never leaves. *)
Theorem loop_without_batching {R : RandomLibrary} (cfg : Config) (env : Env)
  (program vbo vao : Z) (w0 : World) :
  batching_test cfg = false ->
  window_should_close w0 = false ->
  (forall k fuel,
      first_request env k ->
      (k + 2 <= fuel)%nat ->
      exists l w,
        main_loop fuel cfg env program vbo vao 0 initial_locals w0
        = Some (l, w)
        /\ frame l = u32 (Z.of_nat k + 1)
        /\ offset l = 0
        /\ sum l = accumulate env (S k) 0 Float32.zero
        /\ mutation_calls (trace w) = mutation_calls (trace w0)
        /\ gl_buffers w = gl_buffers w0)
  /\ ((forall i, close_requested env i = false) ->
      forall fuel,
        main_loop fuel cfg env program vbo vao 0 initial_locals w0 = None).
Proof.
  intros Hb Hc. split.
  - intros k fuel [Hq Hreq] Hfuel.
    destruct (plain_run cfg env program vbo vao k Hb (fuel - (k + 2)) 0
                initial_locals w0 Hc Hq Hreq) as (w & Hm & Hg & Ht).
    replace (S (S k) + (fuel - (k + 2)))%nat with fuel in Hm by lia.
    eexists _, w. split; [exact Hm|]. cbn [frame offset sum initial_locals].
    repeat split; try assumption. f_equal. lia.
  - intros Hq fuel. apply plain_never_exits; assumption.
Qed.

Lemma loop_without_batching_witness :
  exists l w,
    main_loop (R := MinStd_library) 4 plain_config (closing_env_at 2)
      1 1 1 0 initial_locals (world_with_buffer 80) = Some (l, w)
    /\ frame l = 3
    /\ offset l = 0.
Proof.
  destruct (proj1 (loop_without_batching (R := MinStd_library) plain_config
                     (closing_env_at 2) 1 1 1 (world_with_buffer 80)
                     eq_refl eq_refl) 2%nat 4%nat)
    as (l & w & Hm & Hf & Ho & _).
  - split; [|reflexivity].
    intros j Hj. destruct j as [|[|j]]; [reflexivity | reflexivity | lia].
  - lia.
  - exists l, w. repeat split; assumption.
Defined.

(** X6.  In benchmark mode a close request does not cut its frame short:
    with the first request at poll [k], before the cursor is exhausted
    ([k < pointCount / batchSize]), the loop runs [k + 1] frames and
    rewrites [k + 1] windows, the last of them in the frame that polled the
    request, and leaves with the cursor at [(k + 1) * batchSize]. *)
Theorem close_request_finishes_frame {R : RandomLibrary} (cfg : Config)
  (env : Env) (program vbo vao : Z) (w0 : World) (k fuel : nat) :
  batching_test cfg = true ->
  0 < batchSize cfg ->
  is_u32 (pointCount cfg) ->
  window_should_close w0 = false ->
  mutation_calls (trace w0) = [] ->
  first_request env k ->
  Z.of_nat k < pointCount cfg / batchSize cfg ->
  (k + 2 <= fuel)%nat ->
  exists l w,
    main_loop fuel cfg env program vbo vao 0 initial_locals w0 = Some (l, w)
    /\ frame l = Z.of_nat k + 1
    /\ offset l = (Z.of_nat k + 1) * batchSize cfg
    /\ sum l = accumulate env (S k) 0 Float32.zero
    /\ mutation_calls (trace w) = windows (batchSize cfg) (S k).
Proof.
  intros Hb Hs [Hp1 Hp2] Hc Ht [Hq Hreq] Hk Hfuel.
  pose proof (Z.mul_div_le (pointCount cfg) _ Hs) as Hlo.
  assert (Hroom : (Z.of_nat k + 1) * batchSize cfg <= pointCount cfg) by nia.
  destruct (requested_run cfg env program vbo vao k Hb Hs Hp2
              (fuel - (k + 2)) 0 initial_locals w0 Hc)
    as (w & Hm & Htr); cbn [offset frame initial_locals];
    try assumption; try nia.
  replace (S (S k) + (fuel - (k + 2)))%nat with fuel in Hm by lia.
  cbn [offset frame sum initial_locals] in Hm, Htr.
  eexists _, w. split; [exact Hm|]. cbn [frame offset sum].
  repeat split.
  rewrite Htr, Ht. cbn [app]. unfold windows.
  apply map_ext. intros j. rewrite !Z.add_0_l. reflexivity.
Qed.

Lemma close_request_finishes_frame_witness :
  exists l w,
    main_loop (R := MinStd_library) 3 small_config closing_env 1 1 1 0
      initial_locals (world_with_buffer 80) = Some (l, w)
    /\ frame l = 1
    /\ offset l = 4
    /\ mutation_calls (trace w) = [(0, 4, 0)].
Proof.
  destruct (close_request_finishes_frame (R := MinStd_library) small_config
              closing_env 1 1 1 (world_with_buffer 80) 0 3
              eq_refl eq_refl
              ltac:(vm_compute; split; [discriminate | reflexivity])
              eq_refl eq_refl
              (conj (fun j (H : (j < 0)%nat) =>
                       False_ind _ (Nat.nlt_0_r j H)) eq_refl)
              eq_refl ltac:(lia))
    as (l & w & Hm & Hf & Ho & _ & Ht).
  exists l, w. repeat split; assumption.
Defined.

(** ** Degenerate windows *)

Lemma buffer_byte_buffers (vbo k : Z) (w1 w2 : World) :
  gl_buffers w1 = gl_buffers w2 ->
  buffer_byte vbo k w1 = buffer_byte vbo k w2.
Proof.
  intros H. unfold buffer_byte, buffer_store. rewrite H. reflexivity.
Qed.

(** A call whose window is refused leaves every buffer alone. *)
Lemma AlterBuffer_no_write {R : RandomLibrary}
  (vbo offset batchSize seed : Z) (w : World) :
  match buffer_size vbo w with
  | Some size => size < u32 (offset * 8) + u32 (batchSize * 8)
  | None => True
  end ->
  gl_buffers (snd (AlterBuffer vbo offset batchSize seed w)) = gl_buffers w.
Proof.
  intros H.
  unfold buffer_size, buffer_store in H.
  unfold AlterBuffer, glBindBuffer, glBufferSubData.
  cbn [fst snd gl_array_buffer gl_buffers with_array_buffer].
  destruct (buffer_name vbo) as [p|]; [|reflexivity].
  destruct (gl_buffers w !! p) as [ds|]; [|reflexivity].
  destruct (Z.leb_spec (u32 (offset * 8) + u32 (batchSize * 8)) (ds_size ds));
    [lia|].
  rewrite andb_false_r. reflexivity.
Qed.

(** A call with [batchSize = 0] changes no byte. *)
Lemma AlterBuffer_empty {R : RandomLibrary} (vbo offset seed : Z) (w : World)
  (k : Z) :
  buffer_byte vbo k (snd (AlterBuffer vbo offset 0 seed w))
  = buffer_byte vbo k w.
Proof.
  destruct (buffer_store vbo w) as [ds|] eqn:Hds.
  - destruct (Z.le_gt_cases (u32 (offset * 8) + u32 (0 * 8)) (ds_size ds))
      as [Hfit|Hno].
    + unfold buffer_byte.
      rewrite (AlterBuffer_store vbo offset 0 seed w ds Hds Hfit), Hds.
      cbn [ds_byte store_write]. change (u32 (0 * 8)) with 0.
      destruct (Z.leb_spec (u32 (offset * 8)) k);
        destruct (Z.ltb_spec k (u32 (offset * 8) + 0));
        cbn [andb]; try reflexivity; lia.
    + apply buffer_byte_buffers, AlterBuffer_no_write.
      unfold buffer_size. rewrite Hds. lia.
  - apply buffer_byte_buffers, AlterBuffer_no_write.
    unfold buffer_size. rewrite Hds. exact I.
Qed.

(** X7.  With [batchSize = 0] benchmark mode never finds the cursor
    exhausted: every pass calls [AlterBuffer] with an empty window, the
    cursor stays at 0, no byte of the buffer changes, and without a close
    request the loop never leaves. *)
Theorem empty_batch_never_exhausts {R : RandomLibrary} (cfg : Config)
  (env : Env) (program vbo vao : Z) (w0 : World) :
  batching_test cfg = true ->
  batchSize cfg = 0 ->
  is_u32 (pointCount cfg) ->
  (forall i l w,
      reachable cfg env program vbo vao initial_locals w0 i l w ->
      offset l = 0
      /\ mutates cfg l = true
      /\ forall k, buffer_byte vbo k w = buffer_byte vbo k w0)
  /\ (window_should_close w0 = false ->
      (forall i, close_requested env i = false) ->
      forall fuel,
        main_loop fuel cfg env program vbo vao 0 initial_locals w0 = None).
Proof.
  intros Hb Hz [Hp1 Hp2].
  assert (Hm : forall l, offset l = 0 ->
                         mutates cfg l = true /\ exhausted cfg l = false).
  { intros l Ho. unfold mutates, exhausted. rewrite Hb, Hz, Ho.
    change (u32 (0 + 0)) with 0. rewrite Z.gtb_ltb.
    destruct (Z.ltb_spec (pointCount cfg) 0); [lia|]. split; reflexivity. }
  split.
  - intros i l w Hr. induction Hr as [|i l w Hr IH Hc].
    + split; [reflexivity|]. split; [apply Hm; reflexivity | reflexivity].
    + destruct IH as (Ho & Em & Hk).
      assert (Ho' : offset (fst (loop_body cfg env program vbo vao i l w))
                    = 0).
      { rewrite loop_body_offset, Em, Ho, Hz. reflexivity. }
      split; [exact Ho'|]. split; [apply Hm; exact Ho'|].
      intros k. rewrite <- Hk.
      rewrite (buffer_byte_buffers vbo k _
                 (snd (AlterBuffer vbo (offset l) (batchSize cfg) (frame l)
                         w)))
        by (rewrite loop_body_buffers, Em; reflexivity).
      rewrite Hz. apply AlterBuffer_empty.
  - intros Hc Hq fuel.
    assert (Hgen : forall fuel i l w,
               offset l = 0 -> window_should_close w = false ->
               main_loop fuel cfg env program vbo vao i l w = None).
    { clear fuel. induction fuel as [|fuel IH]; intros i l w Ho Hcl;
        [reflexivity|].
      destruct (Hm l Ho) as [Em Ee].
      rewrite main_loop_S, Hcl. apply IH.
      - rewrite loop_body_offset, Em, Ho, Hz. reflexivity.
      - rewrite loop_body_should_close, Hcl, Hq, Ee. reflexivity. }
    apply Hgen; [reflexivity | exact Hc].
Qed.

Lemma empty_batch_never_exhausts_witness :
  main_loop (R := MinStd_library) 5 empty_batch_config quiet_env 1 1 1 0
    initial_locals (world_with_buffer 80) = None.
Proof.
  exact (proj2 (empty_batch_never_exhausts (R := MinStd_library)
                  empty_batch_config quiet_env 1 1 1 (world_with_buffer 80)
                  eq_refl eq_refl
                  ltac:(vm_compute; split; [discriminate | reflexivity]))
           eq_refl (fun _ => eq_refl) 5%nat).
Defined.



(** ** Buffer names *)

Lemma CreateRandomPointBuffer_world {R : RandomLibrary} (count : Z)
  (w : World) :
  fst (CreateRandomPointBuffer count w) = Z.pos (gl_next_buffer w)
  /\ (exists ds,
        gl_buffers (snd (CreateRandomPointBuffer count w))
        = <[gl_next_buffer w := ds]> (gl_buffers w))
  /\ gl_next_buffer (snd (CreateRandomPointBuffer count w))
     = Pos.succ (gl_next_buffer w)
  /\ gl_array_buffer (snd (CreateRandomPointBuffer count w)) = None.
Proof.
  unfold CreateRandomPointBuffer, glGenBuffers, glBindBuffer, glBufferData.
  cbn [fst snd gl_array_buffer with_array_buffer with_next_buffer
       buffer_name].
  set (size := usize _).
  assert (Hs : 0 <= size) by (apply Z.mod_pos_bound; reflexivity).
  apply Z.leb_le in Hs. rewrite Hs.
  cbn [fst snd gl_buffers gl_next_buffer gl_array_buffer with_buffers
       with_array_buffer with_next_buffer buffer_name].
  split; [reflexivity|]. split; [eexists; reflexivity|].
  split; reflexivity.
Qed.

(** X9.  In a world where no buffer exists under a name not yet handed
    out, [CreateRandomPointBuffer] returns a non-zero handle that named no
    buffer before, leaves every other buffer as it was, unbinds the array
    buffer, and leaves the world in the same condition: a second call
    returns a different handle and does not disturb the first buffer. *)
Theorem CreateRandomPointBuffer_fresh {R : RandomLibrary} (count count' : Z)
  (w : World) :
  buffers_fresh w ->
  0 < fst (CreateRandomPointBuffer count w)
  /\ buffer_store (fst (CreateRandomPointBuffer count w)) w = None
  /\ (forall p,
        buffer_name (fst (CreateRandomPointBuffer count w)) <> Some p ->
        gl_buffers (snd (CreateRandomPointBuffer count w)) !! p
        = gl_buffers w !! p)
  /\ gl_array_buffer (snd (CreateRandomPointBuffer count w)) = None
  /\ buffers_fresh (snd (CreateRandomPointBuffer count w))
  /\ fst (CreateRandomPointBuffer count'
            (snd (CreateRandomPointBuffer count w)))
     <> fst (CreateRandomPointBuffer count w)
  /\ buffer_store (fst (CreateRandomPointBuffer count w))
       (snd (CreateRandomPointBuffer count'
               (snd (CreateRandomPointBuffer count w))))
     = buffer_store (fst (CreateRandomPointBuffer count w))
         (snd (CreateRandomPointBuffer count w)).
Proof.
  intros Hfresh.
  destruct (CreateRandomPointBuffer_world count w)
    as (Hv & (ds & Hg) & Hn & Hb).
  destruct (CreateRandomPointBuffer_world count'
              (snd (CreateRandomPointBuffer count w)))
    as (Hv' & (ds' & Hg') & _ & _).
  rewrite Hv', Hv, Hn. unfold buffer_store. cbn [buffer_name].
  rewrite Hg', Hg, Hn.
  split; [reflexivity|].
  split; [apply Hfresh; lia|].
  split; [intros p Hp; apply lookup_insert_ne; congruence|].
  split; [exact Hb|].
  split.
  { intros p Hp. unfold buffers_fresh in Hfresh. rewrite Hg.
    rewrite Hn in Hp.
    rewrite lookup_insert_ne by lia. apply Hfresh. lia. }
  split.
  { intros H. injection H as H. lia. }
  apply lookup_insert_ne. lia.
Qed.

Lemma CreateRandomPointBuffer_fresh_witness :
  fst (CreateRandomPointBuffer (R := MinStd_library) 2 initial_world) = 1
  /\ fst (CreateRandomPointBuffer (R := MinStd_library) 3
            (snd (CreateRandomPointBuffer (R := MinStd_library) 2
                    initial_world)))
     <> fst (CreateRandomPointBuffer (R := MinStd_library) 2 initial_world).
Proof.
  split; [reflexivity|].
  refine (proj1 (proj2 (proj2 (proj2 (proj2 (proj2
            (CreateRandomPointBuffer_fresh (R := MinStd_library) 2 3
               initial_world _))))))).
  intros p _. reflexivity.
Defined.

Lemma setup_buffers (env : Env) (cfg : Config) (w : World) :
  (gl_buffers (snd (Initialize env (width cfg) (height cfg) w))
   = gl_buffers w
   /\ gl_next_buffer (snd (Initialize env (width cfg) (height cfg) w))
      = gl_next_buffer w)
  /\ (gl_buffers (snd (CreateShaderProgram w)) = gl_buffers w
      /\ gl_next_buffer (snd (CreateShaderProgram w)) = gl_next_buffer w)
  /\ forall vbo,
       gl_buffers (snd (CreateVertexArrayObject vbo w)) = gl_buffers w.
Proof.
  split; [|split; [split; reflexivity | reflexivity]].
  unfold Initialize, glfwCreateWindow.
  destruct (create_window_ok env); split; reflexivity.
Qed.

Lemma main_loop_other_buffers {R : RandomLibrary} (cfg : Config) (env : Env)
  (program vbo vao : Z) (p : positive) (fuel : nat) :
  buffer_name vbo <> Some p ->
  forall i l w l' w',
    main_loop fuel cfg env program vbo vao i l w = Some (l', w') ->
    gl_buffers w' !! p = gl_buffers w !! p.
Proof.
  intros Hp. induction fuel as [|fuel IH]; intros i l w l' w' Hm;
    [discriminate|].
  rewrite main_loop_S in Hm. destruct (window_should_close w).
  - injection Hm as <- <-. reflexivity.
  - rewrite (IH _ _ _ _ _ Hm), loop_body_buffers.
    destruct (mutates cfg l); [|reflexivity].
    apply AlterBuffer_other_buffers. exact Hp.
Qed.

(** X10.  Whenever [main] exits, the buffer it created has been released
    and no other buffer was created, deleted or replaced: started in a
    world where no buffer exists under a name not yet handed out, it leaves
    the table of buffer objects as it found it. *)
Theorem main_restores_buffers {R : RandomLibrary} (fuel : nat) (cfg : Config)
  (env : Env) (w0 : World) (l : Locals) (w : World) :
  buffers_fresh w0 ->
  main fuel cfg env w0 = Exited l w ->
  gl_buffers w = gl_buffers w0.
Proof.
  intros Hfresh H. unfold main in H.
  destruct (setup_buffers env cfg w0) as ((B1 & N1) & _).
  destruct (Initialize env (width cfg) (height cfg) w0) as [window w1].
  cbn [snd] in B1, N1.
  destruct window as [win|]; [|discriminate].
  destruct (gl_loaded w1); [|discriminate].
  destruct (setup_buffers env cfg w1) as (_ & (B2 & N2) & _).
  destruct (CreateShaderProgram w1) as [prog w2]. cbn [snd] in B2, N2.
  destruct (CreateRandomPointBuffer_world (pointCount cfg) w2)
    as (Hv & (ds & Hg) & _ & _).
  destruct (CreateRandomPointBuffer (pointCount cfg) w2) as [b w3].
  cbn [fst snd] in Hv, Hg.
  destruct (setup_buffers env cfg w3) as (_ & _ & B4). specialize (B4 b).
  destruct (CreateVertexArrayObject b w3) as [a w4]. cbn [snd] in B4.
  destruct (benchmark fuel cfg env prog b a w4) as [[l1 w5]|] eqn:Hb;
    [|discriminate].
  injection H as <- <-.
  unfold benchmark in Hb.
  destruct (main_loop fuel cfg env prog b a 0 initial_locals _)
    as [[l2 w6]|] eqn:Hm; [|discriminate].
  injection Hb as <- <-.
  cbn [Shutdown glDeleteBuffers report print_line emit with_buffers
       gl_buffers].
  rewrite Hv. cbn [buffer_name].
  apply map_eq. intros p.
  destruct (decide (p = gl_next_buffer w2)) as [->|Hne].
  - rewrite lookup_delete_eq. symmetry.
    apply Hfresh. rewrite N2, N1. lia.
  - rewrite lookup_delete_ne by congruence.
    rewrite (main_loop_other_buffers cfg env prog b a p fuel
               ltac:(rewrite Hv; cbn [buffer_name]; congruence)
               _ _ _ _ _ Hm).
    cbn [emit gl_buffers].
    rewrite B4, Hg, lookup_insert_ne by congruence.
    rewrite B2, B1. reflexivity.
Qed.

Lemma main_restores_buffers_witness :
  exists l w,
    main (R := MinStd_library) 4 small_config quiet_env initial_world
    = Exited l w
    /\ gl_buffers w = gl_buffers initial_world.
Proof.
  destruct (main (R := MinStd_library) 4 small_config quiet_env
              initial_world) as [l w| |] eqn:E;
    [|vm_compute in E; discriminate E|vm_compute in E; discriminate E].
  exists l, w. split; [reflexivity|].
  apply (main_restores_buffers (R := MinStd_library) 4 small_config
           quiet_env initial_world l w); [|exact E].
  intros p _. reflexivity.
Defined.


(** ** The whole program *)

Lemma setup_flag {R : RandomLibrary} (env : Env) (cfg : Config) (w : World) :
  (create_window_ok env = true ->
   fst (Initialize env (width cfg) (height cfg) w) = Some the_window
   /\ window_should_close (snd (Initialize env (width cfg) (height cfg) w))
      = false
   /\ gl_loaded (snd (Initialize env (width cfg) (height cfg) w))
      = make_current_ok env)
  /\ (create_window_ok env = false ->
      fst (Initialize env (width cfg) (height cfg) w) = None)
  /\ window_should_close (snd (CreateShaderProgram w))
     = window_should_close w
  /\ window_should_close (snd (CreateRandomPointBuffer (pointCount cfg) w))
     = window_should_close w
  /\ (forall vbo,
        window_should_close (snd (CreateVertexArrayObject vbo w))
        = window_should_close w)
  /\ draw_calls (trace (snd (Initialize env (width cfg) (height cfg) w)))
     = draw_calls (trace w)
  /\ trace (snd (CreateShaderProgram w)) = trace w
  /\ trace (snd (CreateRandomPointBuffer (pointCount cfg) w)) = trace w
  /\ (forall vbo, trace (snd (CreateVertexArrayObject vbo w)) = trace w).
Proof.
  assert (Hc : window_should_close
                 (snd (CreateRandomPointBuffer (pointCount cfg) w))
               = window_should_close w
               /\ trace (snd (CreateRandomPointBuffer (pointCount cfg) w))
                  = trace w).
  { unfold CreateRandomPointBuffer, glGenBuffers, glBindBuffer, glBufferData.
    cbn [fst snd gl_array_buffer with_array_buffer with_next_buffer
         buffer_name].
    destruct (0 <=? _); split; reflexivity. }
  destruct Hc as [Hc1 Hc2].
  unfold Initialize, glfwCreateWindow, glfwMakeContextCurrent,
    gladLoadGLLoader.
  split; [|split; [|split; [|split; [|split; [|split; [|split; [|split]]]]]]];
    try reflexivity; try assumption.
  - intros ->. cbn. repeat split.
  - intros ->. reflexivity.
  - destruct (create_window_ok env);
      cbn [fst snd emit trace with_context with_should_close];
      rewrite !draw_calls_app; cbn [draw_calls];
      rewrite ?app_nil_r; reflexivity.
Qed.



(** X12.  When the window and its context are created and the user never
    asks to close, [main] in benchmark mode with [0 < batchSize] and sums
    that do not wrap runs to its end: it exits with the cursor at
    [(pointCount / batchSize) * batchSize] after
    [pointCount / batchSize + 1] frames and has printed the mean of those
    frame times and that count, whatever the close flag was before. *)
Theorem main_terminates {R : RandomLibrary} (cfg : Config) (env : Env)
  (w0 : World) (fuel : nat) :
  create_window_ok env = true ->
  make_current_ok env = true ->
  (forall i, close_requested env i = false) ->
  batching_test cfg = true ->
  0 < batchSize cfg ->
  0 <= pointCount cfg ->
  sums_fit cfg ->
  (Z.to_nat (pointCount cfg / batchSize cfg) + 2 <= fuel)%nat ->
  exists l w,
    main fuel cfg env w0 = Exited l w
    /\ frame l = pointCount cfg / batchSize cfg + 1
    /\ offset l = pointCount cfg / batchSize cfg * batchSize cfg
    /\ stdout w
       = stdout w0
         ++ [OutFloat
               (Float32.div
                  (accumulate env
                     (S (Z.to_nat (pointCount cfg / batchSize cfg))) 0
                     Float32.zero)
                  (Float32.of_uint (pointCount cfg / batchSize cfg + 1)));
             OutUInt (pointCount cfg / batchSize cfg + 1)].
Proof.
  intros Hcw Hmc Hquiet Hb Hs Hp Hw Hfuel.
  pose proof (Z.div_pos _ _ Hp Hs) as Hq.
  pose proof (Z.mul_div_le (pointCount cfg) _ Hs) as Hlo.
  pose proof (Z.mul_succ_div_gt (pointCount cfg) _ Hs) as Hhi.
  unfold sums_fit in Hw.
  set (n := Z.to_nat (pointCount cfg / batchSize cfg)) in *.
  assert (Hn : Z.of_nat n = pointCount cfg / batchSize cfg)
    by (unfold n; lia).
  clearbody n.
  unfold main.
  destruct (setup_flag env cfg w0) as (Hok & _).
  destruct (setup_stdout env cfg w0) as (S1 & _).
  destruct (Initialize env (width cfg) (height cfg) w0) as [window w1].
  cbn [fst snd] in Hok, S1.
  destruct (Hok Hcw) as (-> & C1 & L1). rewrite L1, Hmc.
  destruct (setup_flag env cfg w1) as (_ & _ & C2 & _).
  destruct (setup_stdout env cfg w1) as (_ & S2 & _).
  destruct (CreateShaderProgram w1) as [prog w2]. cbn [snd] in C2, S2.
  destruct (setup_flag env cfg w2) as (_ & _ & _ & C3 & _).
  destruct (setup_stdout env cfg w2) as (_ & _ & S3 & _).
  destruct (CreateRandomPointBuffer (pointCount cfg) w2) as [b w3].
  cbn [snd] in C3, S3.
  destruct (setup_flag env cfg w3) as (_ & _ & _ & _ & C4 & _).
  destruct (setup_stdout env cfg w3) as (_ & _ & _ & S4).
  specialize (C4 b). specialize (S4 b).
  destruct (CreateVertexArrayObject b w3) as [a w4]. cbn [snd] in C4, S4.
  unfold benchmark.
  set (w4' := emit EvEnableDepthTest _).
  assert (Hflag : window_should_close w4' = false).
  { unfold w4'. cbn [emit window_should_close]. congruence. }
  destruct (quiet_run cfg env prog b a Hb Hs Hquiet n
              (fuel - (n + 2)) 0 initial_locals w4' Hflag)
    as (w & Hm & _ & _); cbn [offset frame initial_locals]; try nia.
  replace (S (S n) + (fuel - (n + 2)))%nat with fuel in Hm by lia.
  cbn [offset frame sum initial_locals] in Hm.
  rewrite !Z.add_0_l, Hn in Hm.
  pose proof (main_loop_stdout _ _ _ _ _ _ _ _ _ _ _ Hm) as Hout.
  rewrite Hm. eexists _, _. split; [reflexivity|].
  cbn [frame offset sum report print_line Shutdown glDeleteBuffers
       with_buffers emit stdout].
  split; [reflexivity|]. split; [reflexivity|].
  rewrite Hout. unfold w4'. cbn [emit stdout].
  rewrite S4, S3, S2, S1, <- app_assoc. reflexivity.
Qed.

Lemma main_terminates_witness :
  exists l w,
    main (R := MinStd_library) 4 small_config quiet_env initial_world
    = Exited l w
    /\ frame l = 3
    /\ offset l = 8.
Proof.
  destruct (main_terminates (R := MinStd_library) small_config quiet_env
              initial_world 4 eq_refl eq_refl (fun _ => eq_refl)
              eq_refl eq_refl ltac:(vm_compute; discriminate) eq_refl
              ltac:(vm_compute; lia))
    as (l & w & Hm & Hf & Ho & _).
  exists l, w. repeat split; assumption.
Defined.
